(** * CartMart storefront: the cart provider of [frontend/src/App.js]

    A shallow embedding of the React cart provider ([CartProvider]), of
    the auth provider and of the components that drive them (header,
    product list and card, cart line, cart page, login and register
    pages), followed by the properties of the cart engine, of checkout
    and of the session.

    Conventions of the embedding.
    - A JavaScript number is a value of an abstract carrier [num] with the
      operations the source applies to it ([+], [*], [<=]).  No law of
      arithmetic is assumed unless a statement says so.  The instance
      used for every example is the primitive binary64 float, the number
      of JavaScript.
    - React state is threaded explicitly: every provider function maps the
      current [State] to the next one.  An object spread [{ ...cart }]
      copies the fields of [cart] but shares its [items] array, so the
      in-place [push] and [+=] of [addToCart] also reach the superseded
      state object; that object is never read again once [setCart] has
      run, hence carts are modelled as values.
    - [localStorage] holds the two entries the source uses, [token] and
      [guestCart].  The [guestCart] entry is kept as the cart that
      [JSON.parse] returns for it.  [JSON.stringify] writes NaN and the
      infinities as [null] and [-0] as [0]; for every other number
      [JSON.parse (JSON.stringify x)] is [x].  What [saveGuestCart] stores
      is therefore exact for the carts that [survives_json] accepts, and
      the statements that read back what was written assume it.
    - The HTTP backend is not part of the sources; it is an interface
      ([Backend]) whose endpoints receive exactly what the source sends.
      Of a cart in an answer only [items] and [total] are kept, the two
      properties the sources read. *)

From Stdlib Require Import List String ZArith Bool Lia.
From Stdlib Require Import DecimalString DecimalN.
From Stdlib Require Import PrimFloat.
Import ListNotations.

Local Open Scope string_scope.
Local Open Scope list_scope.

Set Warnings "-inexact-float".

(** ** JavaScript numbers *)

Class JsNumber (num : Type) : Type := {
  nzero : num;                      (* the literal 0 *)
  none  : num;                      (* the literal 1 *)
  nadd  : num -> num -> num;        (* a + b *)
  nmul  : num -> num -> num;        (* a * b *)
  nle   : num -> num -> bool        (* a <= b *)
}.

#[export] Instance Float_JsNumber : JsNumber float := {
  nzero := PrimFloat.zero;
  none  := PrimFloat.one;
  nadd  := PrimFloat.add;
  nmul  := PrimFloat.mul;
  nle   := PrimFloat.leb
}.

(** ** Data *)

Section Data.

Context {num : Type} `{JsNumber num}.

(** A catalog product as the product list hands it to [addToCart]. *)
Record Product : Type := {
  id          : string;
  p_name      : string;
  p_price     : num;
  p_image_url : string
}.

(** One cart line: the object literal pushed by [addToCart]. *)
Record Item : Type := {
  product_id : string;
  name       : string;
  price      : num;
  image_url  : string;
  quantity   : num
}.

(** The cart state [{ items, total }]. *)
Record Cart : Type := {
  items : list Item;
  total : num
}.

(** [useState({ items: [], total: 0 })] *)
Definition emptyCart : Cart := {| items := []; total := nzero |}.

(** Values stored in the properties of an object returned by [checkout]. *)
Inductive JsValue : Type :=
| JUndefined
| JNumber (n : num)
| JString (s : string)
| JArray (l : list Item).

(** An object as the list of its own properties. *)
Definition JsObject : Type := list (string * JsValue).

(** Property read [o.k]; an absent property reads as [undefined]. *)
Fixpoint get_prop (o : JsObject) (k : string) : JsValue :=
  match o with
  | [] => JUndefined
  | (k', v) :: o' => if String.eqb k' k then v else get_prop o' k
  end.

(** *** The guest cart engine *)

(** [items.reduce((sum, item) => sum + (item.price * item.quantity), 0)] *)
Definition cart_total (l : list Item) : num :=
  fold_left (fun sum item => nadd sum (nmul (price item) (quantity item)))
            l nzero.

(** [item => item.product_id === pid] *)
Definition has_id (pid : string) (item : Item) : bool :=
  String.eqb (product_id item) pid.

Definition set_quantity (item : Item) (q : num) : Item :=
  {| product_id := product_id item;
     name := name item;
     price := price item;
     image_url := image_url item;
     quantity := q |}.

(** The effect on the array of mutating, in place, the object that
    [items.find(item => item.product_id === pid)] returns: the first
    matching element is replaced by [f] of it. *)
Fixpoint modify_found (pid : string) (f : Item -> Item) (l : list Item)
  : list Item :=
  match l with
  | [] => []
  | item :: l' =>
      if has_id pid item then f item :: l'
      else item :: modify_found pid f l'
  end.

(** The object literal of [newCart.items.push({...})]. *)
Definition new_item (product : Product) (q : num) : Item :=
  {| product_id := id product;
     name := p_name product;
     price := p_price product;
     image_url := p_image_url product;
     quantity := q |}.

(** Guest branch of [addToCart], up to [setCart]. *)
Definition guest_add (product : Product) (q : num) (cart : Cart) : Cart :=
  let items' :=
    match find (has_id (id product)) (items cart) with
    | Some _ =>
        modify_found (id product)
          (fun existingItem =>
             set_quantity existingItem (nadd (quantity existingItem) q))
          (items cart)
    | None => items cart ++ [new_item product q]
    end in
  {| items := items'; total := cart_total items' |}.

(** Guest branch of [updateQuantity], up to [setCart]. *)
Definition guest_update (productId : string) (q : num) (cart : Cart) : Cart :=
  let items' :=
    if nle q nzero then
      filter (fun item => negb (has_id productId item)) (items cart)
    else
      match find (has_id productId) (items cart) with
      | Some _ =>
          modify_found productId (fun item => set_quantity item q)
                       (items cart)
      | None => items cart
      end in
  {| items := items'; total := cart_total items' |}.

(** Guest branch of [removeFromCart], up to [setCart]. *)
Definition guest_remove (productId : string) (cart : Cart) : Cart :=
  let items' :=
    filter (fun item => negb (has_id productId item)) (items cart) in
  {| items := items'; total := cart_total items' |}.

End Data.

Arguments Product num : clear implicits.
Arguments Item num : clear implicits.
Arguments Cart num : clear implicits.
Arguments JsValue num : clear implicits.
Arguments JsObject num : clear implicits.

(** ** The backend interface

    [axios] calls either resolve with [response.data] or throw. *)

Inductive Response (E A : Type) : Type :=
| Data (a : A)
| Rejected (e : E).

Arguments Data {E A} a.
Arguments Rejected {E A} e.

(** Each endpoint takes the state of the remote service and the values the
    source puts in the request (the bearer token, the query parameters,
    the JSON body) and nothing else. *)
Class Backend (num : Type) : Type := {
  Server : Type;
  User : Type;                       (* payload of GET /auth/me *)
  AxiosError : Type;
  post_auth_login :                  (* POST /auth/login { email, password } *)
    Server -> string -> string -> Server * Response AxiosError string;
  post_auth_register :               (* POST /auth/register { email, password, name } *)
    Server -> string -> string -> string -> Server * Response AxiosError string;
  get_auth_me :                      (* GET /auth/me, bearer *)
    Server -> string -> Server * Response AxiosError User;
  get_cart :                         (* GET /cart, bearer *)
    Server -> string -> Server * Response AxiosError (Cart num);
  post_cart_add :                    (* POST /cart/add?product_id=&quantity=, bearer *)
    Server -> string -> string -> num -> Server * Response AxiosError (Cart num);
  put_cart_update :                  (* PUT /cart/update?product_id=&quantity=, bearer *)
    Server -> string -> string -> num -> Server * Response AxiosError (Cart num);
  delete_cart_remove :               (* DELETE /cart/remove/:productId, bearer *)
    Server -> string -> string -> Server * Response AxiosError (Cart num);
  post_cart_checkout :               (* POST /cart/checkout, bearer *)
    Server -> string -> Server * Response AxiosError (JsObject num)
}.

(** ** The providers *)

Section Providers.

Context {num : Type} `{JsNumber num} `{Backend num}.

(** The two [localStorage] entries of the application. *)
Record LocalStorage : Type := {
  ls_token     : option string;
  ls_guestCart : option (Cart num)
}.

(** React state of [AuthProvider] and [CartProvider], the browser's
    [localStorage] and the remote service. *)
Record State : Type := {
  user         : option User;
  token        : option string;
  loading      : bool;
  cart         : Cart num;
  cartLoading  : bool;
  localStorage : LocalStorage;
  remote       : Server
}.

Definition setUser (u : option User) (s : State) : State :=
  {| user := u; token := token s; loading := loading s; cart := cart s;
     cartLoading := cartLoading s; localStorage := localStorage s;
     remote := remote s |}.

Definition setToken (t : option string) (s : State) : State :=
  {| user := user s; token := t; loading := loading s; cart := cart s;
     cartLoading := cartLoading s; localStorage := localStorage s;
     remote := remote s |}.

Definition setLoading (b : bool) (s : State) : State :=
  {| user := user s; token := token s; loading := b; cart := cart s;
     cartLoading := cartLoading s; localStorage := localStorage s;
     remote := remote s |}.

Definition setCart (c : Cart num) (s : State) : State :=
  {| user := user s; token := token s; loading := loading s; cart := c;
     cartLoading := cartLoading s; localStorage := localStorage s;
     remote := remote s |}.

Definition setCartLoading (b : bool) (s : State) : State :=
  {| user := user s; token := token s; loading := loading s; cart := cart s;
     cartLoading := b; localStorage := localStorage s;
     remote := remote s |}.

Definition setStorage (ls : LocalStorage) (s : State) : State :=
  {| user := user s; token := token s; loading := loading s; cart := cart s;
     cartLoading := cartLoading s; localStorage := ls;
     remote := remote s |}.

Definition setRemote (srv : Server) (s : State) : State :=
  {| user := user s; token := token s; loading := loading s; cart := cart s;
     cartLoading := cartLoading s; localStorage := localStorage s;
     remote := srv |}.

(** [localStorage.setItem('token', t)] and [localStorage.removeItem('token')] *)
Definition store_token (t : option string) (s : State) : State :=
  setStorage {| ls_token := t;
                ls_guestCart := ls_guestCart (localStorage s) |} s.

(** [localStorage.removeItem('guestCart')] *)
Definition remove_guestCart (s : State) : State :=
  setStorage {| ls_token := ls_token (localStorage s);
                ls_guestCart := None |} s.

(** State of a freshly loaded page: the [useState] initialisers. *)
Definition mount (ls : LocalStorage) (srv : Server) : State :=
  {| user := None; token := ls_token ls; loading := true;
     cart := emptyCart; cartLoading := false;
     localStorage := ls; remote := srv |}.

(** A string is truthy unless it is empty. *)
Definition truthy (t : option string) : bool :=
  match t with
  | Some t => negb (String.eqb t "")
  | None => false
  end.

(** The test [user && token]: the bearer token when it holds. *)
Definition bearer (s : State) : option string :=
  match user s, token s with
  | Some _, Some t => if truthy (Some t) then Some t else None
  | _, _ => None
  end.

(** *** AuthProvider *)

(** [login] up to its second [await]: the sign-in request, [setToken] and
    the [token] entry of [localStorage]. *)
Definition login_post (email password : string) (s : State)
  : State * option string :=
  let (srv, r) := post_auth_login (remote s) email password in
  match r with
  | Data access_token =>
      (store_token (Some access_token)
         (setToken (Some access_token) (setRemote srv s)),
       Some access_token)
  | Rejected _ => (setRemote srv s, None)
  end.

(** The rest of [login] and of [register]: the user info request and
    [setUser]; the result is the returned boolean. *)
Definition fetch_user (access_token : string) (s : State) : State * bool :=
  let (srv, r) := get_auth_me (remote s) access_token in
  match r with
  | Data u => (setUser (Some u) (setRemote srv s), true)
  | Rejected _ => (setRemote srv s, false)
  end.

Definition login (email password : string) (s : State) : State * bool :=
  match login_post email password s with
  | (s1, Some access_token) => fetch_user access_token s1
  | (s1, None) => (s1, false)
  end.

Definition register_post (email password name : string) (s : State)
  : State * option string :=
  let (srv, r) := post_auth_register (remote s) email password name in
  match r with
  | Data access_token =>
      (store_token (Some access_token)
         (setToken (Some access_token) (setRemote srv s)),
       Some access_token)
  | Rejected _ => (setRemote srv s, None)
  end.

Definition register (email password name : string) (s : State)
  : State * bool :=
  match register_post email password name s with
  | (s1, Some access_token) => fetch_user access_token s1
  | (s1, None) => (s1, false)
  end.

Definition logout (s : State) : State :=
  store_token None (setToken None (setUser None s)).

(** The effect of [AuthProvider], run when [token] changes. *)
Definition checkAuth (s : State) : State :=
  let s' :=
    match token s with
    | Some t =>
        if truthy (Some t) then
          let (srv, r) := get_auth_me (remote s) t in
          match r with
          | Data u => setUser (Some u) (setRemote srv s)
          | Rejected _ => logout (setRemote srv s)
          end
        else s
    | None => s
    end in
  setLoading false s'.

(** *** CartProvider *)

Definition loadCart (s : State) : State :=
  match bearer s with
  | Some t =>
      let (srv, r) := get_cart (remote s) t in
      match r with
      | Data c => setCart c (setRemote srv s)
      | Rejected _ => setRemote srv s
      end
  | None =>
      match ls_guestCart (localStorage s) with
      | Some savedCart => setCart savedCart s
      | None => s
      end
  end.

Definition saveGuestCart (cartData : Cart num) (s : State) : State :=
  setStorage {| ls_token := ls_token (localStorage s);
                ls_guestCart := Some cartData |} s.

Definition addToCart (product : Product num) (quantity : num) (s : State)
  : State :=
  let s' :=
    match bearer s with
    | Some t =>
        let (srv, r) := post_cart_add (remote s) t (id product) quantity in
        match r with
        | Data c => setCart c (setRemote srv s)
        | Rejected _ => setRemote srv s
        end
    | None =>
        let newCart := guest_add product quantity (cart s) in
        saveGuestCart newCart (setCart newCart s)
    end in
  setCartLoading false s'.

Definition updateQuantity (productId : string) (quantity : num) (s : State)
  : State :=
  let s' :=
    match bearer s with
    | Some t =>
        let (srv, r) := put_cart_update (remote s) t productId quantity in
        match r with
        | Data c => setCart c (setRemote srv s)
        | Rejected _ => setRemote srv s
        end
    | None =>
        let newCart := guest_update productId quantity (cart s) in
        saveGuestCart newCart (setCart newCart s)
    end in
  setCartLoading false s'.

Definition removeFromCart (productId : string) (s : State) : State :=
  let s' :=
    match bearer s with
    | Some t =>
        let (srv, r) := delete_cart_remove (remote s) t productId in
        match r with
        | Data c => setCart c (setRemote srv s)
        | Rejected _ => setRemote srv s
        end
    | None =>
        let newCart := guest_remove productId (cart s) in
        saveGuestCart newCart (setCart newCart s)
    end in
  setCartLoading false s'.

(** How a call of [checkout] ends. *)
Inductive Outcome : Type :=
| Returned (order : JsObject num)
| Thrown (error : AxiosError).

(** ['guest-' + Date.now()] for a clock reading of [now] milliseconds. *)
Definition guest_order_id (now : N) : string :=
  String.append "guest-" (NilEmpty.string_of_uint (N.to_uint now)).

(** The object literal [orderData] of the guest branch. *)
Definition orderData (now : N) (c : Cart num) : JsObject num :=
  [ ("order_id", JString (guest_order_id now));
    ("total", JNumber (total c));
    ("message", JString "Order placed successfully! (Guest checkout)") ].

Definition checkout (now : N) (s : State) : State * Outcome :=
  match bearer s with
  | Some t =>
      let (srv, r) := post_cart_checkout (remote s) t in
      match r with
      | Data order => (setCart emptyCart (setRemote srv s), Returned order)
      | Rejected error => (setRemote srv s, Thrown error)
      end
  | None =>
      (remove_guestCart (setCart emptyCart s), Returned (orderData now (cart s)))
  end.

(** *** CartPage *)

(** What the cart page renders. Only [CartSummary] carries the Checkout
    button. *)
Inductive CartPageView : Type :=
| OrderSuccessful (order : JsObject num)
| CartIsEmpty
| CartSummary (lines : list (Item num)) (subtotal : num).

Definition CartPage (orderComplete : option (JsObject num)) (s : State)
  : CartPageView :=
  match orderComplete with
  | Some order => OrderSuccessful order
  | None =>
      if Nat.eqb (List.length (items (cart s))) 0 then CartIsEmpty
      else CartSummary (items (cart s)) (total (cart s))
  end.

(** [handleCheckout]: the new [orderComplete] and the new state. *)
Definition handleCheckout (now : N) (orderComplete : option (JsObject num))
  (s : State) : option (JsObject num) * State :=
  match checkout now s with
  | (s', Returned result) => (Some result, s')
  | (s', Thrown _) => (orderComplete, s')
  end.

(** A click on the Checkout button of the rendered page, if there is one. *)
Definition click_checkout (now : N) (orderComplete : option (JsObject num))
  (s : State) : option (JsObject num) * State :=
  match CartPage orderComplete s with
  | CartSummary _ _ => handleCheckout now orderComplete s
  | _ => (orderComplete, s)
  end.

(** *** ProductCard *)

(** [onClick={() => addToCart(product)}]: the only call of [addToCart];
    the parameter [quantity] takes its default [1]. *)
Definition ProductCard_onClick (product : Product num) (s : State)
  : State :=
  addToCart product none s.

End Providers.

Arguments LocalStorage num : clear implicits.
Arguments State num {_}.
Arguments Outcome num {_}.
Arguments CartPageView num : clear implicits.

(** ** Runs of the provider *)

Section Runs.

Context {num : Type} `{JsNumber num} `{Backend num}.

(** The three cart mutations offered by the cart context. *)
Inductive Mutation : Type :=
| AddToCart (product : Product num) (quantity : num)
| UpdateQuantity (productId : string) (quantity : num)
| RemoveFromCart (productId : string).

Definition mutate (s : State num) (m : Mutation) : State num :=
  match m with
  | AddToCart product quantity => addToCart product quantity s
  | UpdateQuantity productId quantity => updateQuantity productId quantity s
  | RemoveFromCart productId => removeFromCart productId s
  end.

Definition run_mutations (s : State num) (ms : list Mutation) : State num :=
  fold_left mutate ms s.

(** Transitions of the session that are not cart mutations: the functions
    of the auth provider (with [login] and [register] also split at their
    second [await]), the two effects, and a page load. *)
Inductive SessionStep : Type :=
| Login (email password : string)
| LoginPost (email password : string)
| Register (email password name : string)
| RegisterPost (email password name : string)
| FetchUser (access_token : string)
| Logout
| CheckAuth
| LoadCart
| Reload.

Definition session_step (s : State num) (e : SessionStep) : State num :=
  match e with
  | Login email password => fst (login email password s)
  | LoginPost email password => fst (login_post email password s)
  | Register email password name => fst (register email password name s)
  | RegisterPost email password name =>
      fst (register_post email password name s)
  | FetchUser access_token => fst (fetch_user access_token s)
  | Logout => logout s
  | CheckAuth => checkAuth s
  | LoadCart => loadCart s
  | Reload => mount (localStorage s) (remote s)
  end.

Definition run_session (s : State num) (es : list SessionStep) : State num :=
  fold_left session_step es s.

(** *** Invariants of a cart *)

(** The stored total is the sum of the lines, taken in line order. *)
Definition consistent (c : Cart num) : Prop :=
  total c = cart_total (items c).

(** No two lines carry the same product id. *)
Definition unique_ids (c : Cart num) : Prop :=
  NoDup (map product_id (items c)).

(** Every cart the backend sends in answer to a mutation satisfies [P]. *)
Definition answers_satisfy (P : Cart num -> Prop) : Prop :=
  (forall srv t pid q srv' c,
      post_cart_add srv t pid q = (srv', Data c) -> P c)
  /\ (forall srv t pid q srv' c,
         put_cart_update srv t pid q = (srv', Data c) -> P c)
  /\ (forall srv t pid srv' c,
         delete_cart_remove srv t pid = (srv', Data c) -> P c).

End Runs.

Arguments Mutation num : clear implicits.

(** ** A backend double and sample data *)

(** A service with a single account: the server state is the durable cart
    of that account, every sign-in yields the token [jwt], and the cart is
    served to the bearer of that token.  The write endpoints are out of
    service. *)
Definition single_account (num : Type) `{JsNumber num} : Backend num := {|
  Server := Cart num;
  User := string;
  AxiosError := string;
  post_auth_login := fun srv _ _ => (srv, Data "jwt");
  post_auth_register := fun srv _ _ _ => (srv, Data "jwt");
  get_auth_me := fun srv t =>
    (srv, if String.eqb t "jwt" then Data "Sarah Johnson" else Rejected "401");
  get_cart := fun srv t =>
    (srv, if String.eqb t "jwt" then Data srv else Rejected "401");
  post_cart_add := fun srv _ _ _ => (srv, Rejected "503");
  put_cart_update := fun srv _ _ _ => (srv, Rejected "503");
  delete_cart_remove := fun srv _ _ => (srv, Rejected "503");
  post_cart_checkout := fun srv _ => (srv, Rejected "503")
|}.

Module Sample.

Definition board : Product float :=
  {| id := "A"; p_name := "Bamboo Cutting Board"; p_price := 24.99%float;
     p_image_url := "board.jpg" |}.

Definition mug : Product float :=
  {| id := "B"; p_name := "Ceramic Mug"; p_price := 34.99%float;
     p_image_url := "mug.jpg" |}.

(** A first visit: nothing in [localStorage], an account with an empty
    durable cart on the server. *)
Definition first_visit : State float (H0 := single_account float) :=
  mount (H0 := single_account float)
        {| ls_token := None; ls_guestCart := None |} emptyCart.

(** The walk through the cart of the storefront's test run. *)
Definition walk : list (Mutation float) :=
  [ AddToCart board 2%float;
    AddToCart mug 1%float;
    UpdateQuantity "A" 3%float;
    RemoveFromCart "B";
    AddToCart board 1%float ].

(** A guest who has put two boards in the cart. *)
Definition guest_with_boards : State float (H0 := single_account float) :=
  addToCart board 2%float first_visit.

(** Sign-in from the login page: [login] succeeds, the page is loaded
    again, the cart effect runs for the not yet identified visitor, the
    auth effect identifies the user, and the cart effect runs again. *)
Definition sign_in : list SessionStep :=
  [ Login "sarah.johnson@example.com" "secret";
    Reload; LoadCart; CheckAuth; LoadCart ].

(** The guest with two boards signs in. *)
Definition signed_in : State float (H0 := single_account float) :=
  run_session guest_with_boards sign_in.

(** Logging out changes [user] and [token], so the cart effect runs. *)
Definition sign_out : list SessionStep := [ Logout; LoadCart ].

(** A visitor whose account holds a mug and who never shopped as a guest
    signs in. *)
Definition member_signed_in : State float (H0 := single_account float) :=
  run_session
    (mount (H0 := single_account float)
           {| ls_token := None; ls_guestCart := None |}
           (guest_add mug 1%float emptyCart))
    sign_in.

End Sample.

(** ** The remaining components *)

(** [a - b], used by the cart line's minus button. *)
Class JsSubtraction (num : Type) : Type := {
  nsub : num -> num -> num
}.

#[export] Instance Float_JsSubtraction : JsSubtraction float := {
  nsub := PrimFloat.sub
}.

(** Whether [JSON.parse (JSON.stringify x)] is [x] itself. *)
Class JsonNumber (num : Type) : Type := {
  number_survives_json : num -> bool
}.

(** A double comes back unless it is NaN, an infinity or [-0]. *)
#[export] Instance Float_JsonNumber : JsonNumber float := {
  number_survives_json := fun x =>
    PrimFloat.is_finite x
    && negb (PrimFloat.is_zero x && PrimFloat.get_sign x)
}.

(** The two catalog requests of the product list. *)
Class CatalogBackend (num : Type) `{Backend num} : Type := {
  post_init_products :               (* POST /init/products *)
    Server -> Server * Response AxiosError unit;
  get_products :                     (* GET /products *)
    Server -> Server * Response AxiosError (list (Product num))
}.

Section Components.

Context {num : Type} `{JsNumber num} `{JsSubtraction num} `{Backend num}
        `{!CatalogBackend num}.

(** *** Header *)

(** [cart.items.reduce((sum, item) => sum + item.quantity, 0)] *)
Definition cart_count (l : list (Item num)) : num :=
  fold_left (fun sum item => nadd sum (quantity item)) l nzero.

(** The badge on the cart link: [cart.items.length > 0 && <span>...]. *)
Definition Header_badge (s : State num) : option num :=
  if Nat.ltb 0 (List.length (items (cart s)))
  then Some (cart_count (items (cart s)))
  else None.

(** *** CartItem *)

(** The three buttons of a cart line. *)
Definition CartItem_minus (item : Item num) (s : State num) : State num :=
  updateQuantity (product_id item) (nsub (quantity item) none) s.

Definition CartItem_plus (item : Item num) (s : State num) : State num :=
  updateQuantity (product_id item) (nadd (quantity item) none) s.

Definition CartItem_remove (item : Item num) (s : State num) : State num :=
  removeFromCart (product_id item) s.

(** *** LoginPage and RegisterPage *)

(** [handleSubmit]: on success [window.location.href = '/'] loads the
    page anew. *)
Definition LoginPage_handleSubmit (email password : string) (s : State num)
  : State num :=
  let (s', success) := login email password s in
  if success then mount (localStorage s') (remote s') else s'.

Definition RegisterPage_handleSubmit (email password name : string)
  (s : State num) : State num :=
  let (s', success) := register email password name s in
  if success then mount (localStorage s') (remote s') else s'.

(** *** ProductList *)

Record ProductListState : Type := {
  products   : list (Product num);
  pl_loading : bool
}.

(** [useState([])] and [useState(true)] *)
Definition ProductList_mount : ProductListState :=
  {| products := []; pl_loading := true |}.

(** The effect of the product list: both requests sit in one [try]. *)
Definition loadProducts (srv : Server) (st : ProductListState)
  : Server * ProductListState :=
  let (srv1, r1) := post_init_products srv in
  match r1 with
  | Data _ =>
      let (srv2, r2) := get_products srv1 in
      match r2 with
      | Data ps => (srv2, {| products := ps; pl_loading := false |})
      | Rejected _ =>
          (srv2, {| products := products st; pl_loading := false |})
      end
  | Rejected _ => (srv1, {| products := products st; pl_loading := false |})
  end.

(** What the product list renders. *)
Inductive ProductListView : Type :=
| Spinner
| Grid (cards : list (Product num)).

Definition ProductList (st : ProductListState) : ProductListView :=
  if pl_loading st then Spinner else Grid (products st).

(** *** Carts that JSON gives back *)

(** Every number of the cart comes back from [JSON.parse] of
    [JSON.stringify] as it was. *)
Definition survives_json `{JsonNumber num} (c : Cart num) : bool :=
  number_survives_json (total c)
  && forallb (fun item =>
                number_survives_json (price item)
                && number_survives_json (quantity item))
             (items c).

(** *** Everything a visitor can set off *)

Inductive Action : Type :=
| Session (e : SessionStep)
| Mutate (m : Mutation num)
| Checkout (now : N)
| SubmitLogin (email password : string)
| SubmitRegister (email password name : string).

Definition act (s : State num) (a : Action) : State num :=
  match a with
  | Session e => session_step s e
  | Mutate m => mutate s m
  | Checkout now => fst (checkout now s)
  | SubmitLogin email password => LoginPage_handleSubmit email password s
  | SubmitRegister email password name =>
      RegisterPage_handleSubmit email password name s
  end.

Definition run_actions (s : State num) (l : list Action) : State num :=
  fold_left act l s.

(** The request a mutation sends for a signed-in user, and its answer. *)
Definition request (srv : Server) (t : string) (m : Mutation num)
  : Server * Response AxiosError (Cart num) :=
  match m with
  | AddToCart product quantity => post_cart_add srv t (id product) quantity
  | UpdateQuantity productId quantity =>
      put_cart_update srv t productId quantity
  | RemoveFromCart productId => delete_cart_remove srv t productId
  end.

(** The cart on display survives JSON now and after each action of the
    list. *)
Fixpoint survives_along `{JsonNumber num} (s : State num) (l : list Action)
  : bool :=
  survives_json (cart s)
  && match l with
     | [] => true
     | a :: l' => survives_along (act s a) l'
     end.

(** The product a mutation is about. *)
Definition target (m : Mutation num) : string :=
  match m with
  | AddToCart product _ => id product
  | UpdateQuantity productId _ => productId
  | RemoveFromCart productId => productId
  end.

(** The line is the snapshot of the product taken by [addToCart]. *)
Definition snapshot_of (product : Product num) (item : Item num) : Prop :=
  product_id item = id product
  /\ name item = p_name product
  /\ price item = p_price product
  /\ image_url item = p_image_url product.

End Components.

Arguments ProductListState num : clear implicits.
Arguments ProductListView num : clear implicits.
Arguments Action num : clear implicits.

(** Sample data for the remaining components. *)
Module Tour.

(** The catalog of the single-account service. *)
Definition open_catalog : CatalogBackend float (H := single_account float) :=
  {| post_init_products := fun srv => (srv, Data tt);
     get_products := fun srv => (srv, Data [Sample.board; Sample.mug]) |}.

(** The same service when the initialisation request is refused. *)
Definition closed_catalog : CatalogBackend float (H := single_account float) :=
  {| post_init_products := fun srv => (srv, Rejected ("500" : AxiosError (Backend := single_account float)));
     get_products := fun srv => (srv, Data [Sample.board; Sample.mug]) |}.

(** A page load with a stored token the service knows, and with one it
    does not know, the guest cart with two boards being in the store. *)
Definition returning (t : string) : State float (H0 := single_account float) :=
  mount (H0 := single_account float)
        {| ls_token := Some t;
           ls_guestCart := Some (cart Sample.guest_with_boards) |}
        (guest_add Sample.mug 1%float emptyCart).

(** A guest with one board and one mug. *)
Definition guest_with_both : State float (H0 := single_account float) :=
  addToCart Sample.mug 1%float (addToCart Sample.board 1%float Sample.first_visit).

(** A service whose one account always has an empty cart. *)
Definition fresh_account : Backend float := {|
  Server := unit;
  User := string;
  AxiosError := string;
  post_auth_login := fun srv _ _ => (srv, Data "jwt");
  post_auth_register := fun srv _ _ _ => (srv, Data "jwt");
  get_auth_me := fun srv _ => (srv, Data "Sarah Johnson");
  get_cart := fun srv _ => (srv, Data emptyCart);
  post_cart_add := fun srv _ _ _ => (srv, Rejected "503");
  put_cart_update := fun srv _ _ _ => (srv, Rejected "503");
  delete_cart_remove := fun srv _ _ => (srv, Rejected "503");
  post_cart_checkout := fun srv _ => (srv, Rejected "503")
|}.

(** A visit with everything in it: shop as a guest, sign in through the
    login page, log out, shop again, check out. *)
Definition long_visit : list (Action float) :=
  [ Mutate (AddToCart Sample.board 2%float);
    SubmitLogin "sarah.johnson@example.com" "secret";
    Session LoadCart; Session CheckAuth; Session LoadCart;
    Mutate (AddToCart Sample.mug 1%float);
    Session Logout; Session LoadCart;
    Mutate (UpdateQuantity "A" 3%float);
    Checkout 1753180598000%N ].

(** The board after a price rise in the catalog. *)
Definition dearer_board : Product float :=
  {| id := "A"; p_name := "Bamboo Cutting Board XL"; p_price := 29.99%float;
     p_image_url := "board-xl.jpg" |}.

End Tour.

(** ** Properties of the guest engine *)

Section GuestEngine.

Context {num : Type} `{JsNumber num}.

Lemma guest_add_consistent (p : Product num) (q : num) (c : Cart num) :
  total (guest_add p q c) = cart_total (items (guest_add p q c)).
Proof. reflexivity. Qed.

Lemma guest_update_consistent (pid : string) (q : num) (c : Cart num) :
  total (guest_update pid q c) = cart_total (items (guest_update pid q c)).
Proof. reflexivity. Qed.

Lemma guest_remove_consistent (pid : string) (c : Cart num) :
  total (guest_remove pid c) = cart_total (items (guest_remove pid c)).
Proof. reflexivity. Qed.

Lemma has_id_true (pid : string) (it : Item num) :
  has_id pid it = true <-> product_id it = pid.
Proof. unfold has_id. apply String.eqb_eq. Qed.

Lemma has_id_false (pid : string) (it : Item num) :
  has_id pid it = false <-> product_id it <> pid.
Proof. unfold has_id. apply String.eqb_neq. Qed.

(** [find] fails exactly when no line carries the id. *)
Lemma find_has_id_none (pid : string) (l : list (Item num)) :
  find (has_id pid) l = None <-> ~ In pid (map product_id l).
Proof.
  induction l as [|it l IH]; simpl.
  - tauto.
  - destruct (has_id pid it) eqn:E.
    + apply has_id_true in E. split; [discriminate | intros N; elim N; auto].
    + apply has_id_false in E. rewrite IH. tauto.
Qed.

(** Changing a field other than the id leaves the ids as they were. *)
Lemma modify_found_ids (pid : string) (f : Item num -> Item num)
  (l : list (Item num)) :
  (forall it, product_id (f it) = product_id it) ->
  map product_id (modify_found pid f l) = map product_id l.
Proof.
  intros Hf. induction l as [|it l IH]; simpl; [reflexivity|].
  destruct (has_id pid it); simpl; [rewrite Hf | rewrite IH]; reflexivity.
Qed.

Lemma filter_ids_incl (p : Item num -> bool) (l : list (Item num)) (x : string) :
  In x (map product_id (filter p l)) -> In x (map product_id l).
Proof.
  rewrite !in_map_iff. intros [it [E I]]. apply filter_In in I.
  exists it. tauto.
Qed.

Lemma filter_ids_NoDup (p : Item num -> bool) (l : list (Item num)) :
  NoDup (map product_id l) -> NoDup (map product_id (filter p l)).
Proof.
  induction l as [|it l IH]; simpl; intros N; [constructor|].
  inversion N as [|? ? Hn N']; subst.
  destruct (p it); simpl; auto.
  constructor; auto. intros I. apply Hn. eapply filter_ids_incl; eauto.
Qed.

(** Filtering a product out of a list that does not hold it changes
    nothing. *)
Lemma filter_absent (pid : string) (l : list (Item num)) :
  ~ In pid (map product_id l) ->
  filter (fun item => negb (has_id pid item)) l = l.
Proof.
  induction l as [|it l IH]; simpl; intros N; [reflexivity|].
  destruct (has_id pid it) eqn:E; simpl.
  - apply has_id_true in E. elim N; auto.
  - rewrite IH; auto.
Qed.

Lemma filter_removes (pid : string) (l : list (Item num)) :
  ~ In pid (map product_id (filter (fun item => negb (has_id pid item)) l)).
Proof.
  rewrite in_map_iff. intros [it [E I]]. apply filter_In in I.
  destruct I as [_ I]. apply negb_true_iff, has_id_false in I. auto.
Qed.

Lemma guest_add_unique (p : Product num) (q : num) (c : Cart num) :
  unique_ids c -> unique_ids (guest_add p q c).
Proof.
  unfold unique_ids, guest_add; simpl. intros N.
  destruct (find (has_id (id p)) (items c)) eqn:F.
  - rewrite modify_found_ids; auto.
  - apply find_has_id_none in F.
    rewrite map_app; simpl.
    apply (NoDup_Add (Add_app (id p) (map product_id (items c)) [])).
    rewrite app_nil_r. split; assumption.
Qed.

Lemma guest_update_unique (pid : string) (q : num) (c : Cart num) :
  unique_ids c -> unique_ids (guest_update pid q c).
Proof.
  unfold unique_ids, guest_update; simpl. intros N.
  destruct (nle q nzero).
  - apply filter_ids_NoDup; assumption.
  - destruct (find (has_id pid) (items c)); auto.
    rewrite modify_found_ids; auto.
Qed.

Lemma guest_remove_unique (pid : string) (c : Cart num) :
  unique_ids c -> unique_ids (guest_remove pid c).
Proof.
  unfold unique_ids, guest_remove; simpl. apply filter_ids_NoDup.
Qed.

(** With distinct ids the line that [find] returns is the only one with
    that id, so changing it is a [map] over the lines. *)
Lemma map_absent (pid : string) (f : Item num -> Item num)
  (l : list (Item num)) :
  ~ In pid (map product_id l) ->
  map (fun it => if has_id pid it then f it else it) l = l.
Proof.
  induction l as [|it l IH]; simpl; intros N; [reflexivity|].
  destruct (has_id pid it) eqn:E.
  - apply has_id_true in E. elim N; auto.
  - rewrite IH; auto.
Qed.

Lemma modify_found_map (pid : string) (f : Item num -> Item num)
  (l : list (Item num)) :
  NoDup (map product_id l) ->
  modify_found pid f l = map (fun it => if has_id pid it then f it else it) l.
Proof.
  induction l as [|it l IH]; simpl; intros N; [reflexivity|].
  inversion N as [|? ? Hn N']; subst.
  destruct (has_id pid it) eqn:E.
  - apply has_id_true in E. subst pid. rewrite map_absent; auto.
  - rewrite IH; auto.
Qed.

Lemma modify_found_absent (pid : string) (f : Item num -> Item num)
  (l : list (Item num)) :
  ~ In pid (map product_id l) -> modify_found pid f l = l.
Proof.
  induction l as [|it l IH]; simpl; intros N; [reflexivity|].
  destruct (has_id pid it) eqn:E.
  - apply has_id_true in E. elim N; auto.
  - rewrite IH; auto.
Qed.

(** The line that [find] returned is found again, changed. *)
Lemma find_modify_found (pid : string) (f : Item num -> Item num)
  (l : list (Item num)) (it : Item num) :
  (forall x, product_id (f x) = product_id x) ->
  find (has_id pid) l = Some it ->
  find (has_id pid) (modify_found pid f l) = Some (f it).
Proof.
  intros Hf. induction l as [|x l IH]; simpl; [discriminate|].
  destruct (has_id pid x) eqn:E; simpl.
  - intros [= ->]. unfold has_id in *. rewrite Hf, E. reflexivity.
  - rewrite E. exact IH.
Qed.

(** A pushed line is the one [find] returns when no earlier line has its
    id. *)
Lemma find_pushed (pid : string) (l : list (Item num)) (x : Item num) :
  find (has_id pid) l = None -> product_id x = pid ->
  find (has_id pid) (l ++ [x]) = Some x.
Proof.
  intros F E. induction l as [|y l IH]; simpl in *.
  - apply has_id_true in E. rewrite E. reflexivity.
  - destruct (has_id pid y); [discriminate | auto].
Qed.

Lemma modify_pushed (pid : string) (f : Item num -> Item num)
  (l : list (Item num)) (x : Item num) :
  find (has_id pid) l = None -> product_id x = pid ->
  modify_found pid f (l ++ [x]) = l ++ [f x].
Proof.
  intros F E. induction l as [|y l IH]; simpl in *.
  - apply has_id_true in E. rewrite E. reflexivity.
  - destruct (has_id pid y); [discriminate | rewrite IH; auto].
Qed.

(** Two in-place changes of the found line amount to one. *)
Lemma modify_found_twice (pid : string) (f g : Item num -> Item num)
  (l : list (Item num)) :
  (forall x, product_id (f x) = product_id x) ->
  modify_found pid g (modify_found pid f l)
  = modify_found pid (fun x => g (f x)) l.
Proof.
  intros Hf. induction l as [|x l IH]; simpl; [reflexivity|].
  destruct (has_id pid x) eqn:E; simpl.
  - unfold has_id in *. rewrite Hf, E. reflexivity.
  - rewrite E, IH. reflexivity.
Qed.

Lemma modify_found_ext (pid : string) (f g : Item num -> Item num)
  (l : list (Item num)) :
  (forall x, f x = g x) -> modify_found pid f l = modify_found pid g l.
Proof.
  intros E. induction l as [|x l IH]; simpl; [reflexivity|].
  destruct (has_id pid x); [rewrite E | rewrite IH]; reflexivity.
Qed.

Lemma guest_add_new (p : Product num) (q : num) (c : Cart num) :
  find (has_id (id p)) (items c) = None ->
  items (guest_add p q c) = items c ++ [new_item p q].
Proof. intros F. unfold guest_add. rewrite F. reflexivity. Qed.

Lemma guest_add_existing (p : Product num) (q : num) (c : Cart num)
  (it : Item num) :
  find (has_id (id p)) (items c) = Some it ->
  items (guest_add p q c)
  = modify_found (id p) (fun x => set_quantity x (nadd (quantity x) q))
                 (items c).
Proof. intros F. unfold guest_add. rewrite F. reflexivity. Qed.

(** Two adds of one product, for a cart without a line for it and for a
    cart with one. *)
Lemma guest_add_twice_new (p : Product num) (q1 q2 : num) (c : Cart num) :
  find (has_id (id p)) (items c) = None ->
  items (guest_add p q2 (guest_add p q1 c))
  = items c ++ [new_item p (nadd q1 q2)].
Proof.
  intros F.
  assert (F1 : find (has_id (id p)) (items (guest_add p q1 c))
               = Some (new_item p q1)).
  { rewrite guest_add_new by exact F. apply find_pushed; [exact F|reflexivity]. }
  rewrite (guest_add_existing p q2 _ _ F1).
  rewrite guest_add_new by exact F.
  rewrite modify_pushed; [reflexivity | exact F | reflexivity].
Qed.

Lemma guest_add_twice_existing (p : Product num) (q1 q2 : num) (c : Cart num)
  (it : Item num) :
  find (has_id (id p)) (items c) = Some it ->
  items (guest_add p q2 (guest_add p q1 c))
  = modify_found (id p)
      (fun x => set_quantity x (nadd (nadd (quantity x) q1) q2)) (items c).
Proof.
  intros F.
  assert (F1 : find (has_id (id p)) (items (guest_add p q1 c))
               = Some (set_quantity it (nadd (quantity it) q1))).
  { rewrite (guest_add_existing p q1 c it F).
    apply (find_modify_found (id p)
             (fun x => set_quantity x (nadd (quantity x) q1)));
      [reflexivity | exact F]. }
  rewrite (guest_add_existing p q2 _ _ F1).
  rewrite (guest_add_existing p q1 c it F).
  rewrite modify_found_twice by reflexivity.
  reflexivity.
Qed.

(** Two changes that agree on the line found change the lines alike. *)
Lemma modify_found_agree (pid : string) (f g : Item num -> Item num)
  (l : list (Item num)) (it : Item num) :
  find (has_id pid) l = Some it -> f it = g it ->
  modify_found pid f l = modify_found pid g l.
Proof.
  intros F E. induction l as [|x l IH]; simpl in *; [discriminate|].
  destruct (has_id pid x).
  - injection F as ->. rewrite E. reflexivity.
  - rewrite IH by exact F. reflexivity.
Qed.

(** A cart is determined by its lines once its total is computed. *)
Lemma guest_add_eq (p : Product num) (q q' : num) (c c' : Cart num) :
  items (guest_add p q c) = items (guest_add p q' c') ->
  guest_add p q c = guest_add p q' c'.
Proof.
  intros E.
  change (guest_add p q c)
    with {| items := items (guest_add p q c);
            total := cart_total (items (guest_add p q c)) |}.
  rewrite E. reflexivity.
Qed.

End GuestEngine.

(** ** Invariants along runs of mutations *)

Section Invariants.

Context {num : Type} `{JsNumber num} `{Backend num}.

(** A mutation changes neither [user] nor [token]. *)
Lemma bearer_mutate (s : State num) (m : Mutation num) :
  bearer (mutate s m) = bearer s.
Proof.
  destruct m; simpl;
    [unfold addToCart | unfold updateQuantity | unfold removeFromCart];
    destruct (bearer s) eqn:B; try (simpl; exact B).
  - destruct (post_cart_add _ _ _ _) as [srv [c|e]]; exact B.
  - destruct (put_cart_update _ _ _ _) as [srv [c|e]]; exact B.
  - destruct (delete_cart_remove _ _ _) as [srv [c|e]]; exact B.
Qed.

Section Preservation.

Variable P : Cart num -> Prop.
Hypothesis P_add : forall p q c, P c -> P (guest_add p q c).
Hypothesis P_update : forall pid q c, P c -> P (guest_update pid q c).
Hypothesis P_remove : forall pid c, P c -> P (guest_remove pid c).

(** A property kept by the guest engine and satisfied by the answers of
    the backend is kept by every mutation of the provider. *)
Lemma mutate_preserves (s : State num) (m : Mutation num) :
  (bearer s <> None -> answers_satisfy P) ->
  P (cart s) -> P (cart (mutate s m)).
Proof.
  intros HB HP.
  destruct m; simpl;
    [unfold addToCart | unfold updateQuantity | unfold removeFromCart];
    destruct (bearer s) as [t|] eqn:B; simpl; auto;
    assert (A : answers_satisfy P) by (apply HB; discriminate);
    destruct A as [A1 [A2 A3]].
  - destruct (post_cart_add _ _ _ _) as [srv [c|e]] eqn:E; simpl; eauto.
  - destruct (put_cart_update _ _ _ _) as [srv [c|e]] eqn:E; simpl; eauto.
  - destruct (delete_cart_remove _ _ _) as [srv [c|e]] eqn:E; simpl; eauto.
Qed.

Lemma run_preserves (ms : list (Mutation num)) :
  forall s : State num,
    (bearer s <> None -> answers_satisfy P) ->
    P (cart s) -> P (cart (run_mutations s ms)).
Proof.
  induction ms as [|m ms IH]; intros s HB HP; simpl; [exact HP|].
  apply IH.
  - rewrite bearer_mutate. exact HB.
  - apply mutate_preserves; assumption.
Qed.

End Preservation.

(** In guest mode the cart after a mutation is computed from the lines of
    the current cart alone. *)
Lemma guest_mutate_cart (s : State num) (m : Mutation num) :
  bearer s = None ->
  cart (mutate s m) =
  match m with
  | AddToCart p q => guest_add p q (cart s)
  | UpdateQuantity pid q => guest_update pid q (cart s)
  | RemoveFromCart pid => guest_remove pid (cart s)
  end.
Proof.
  intros B. destruct m; simpl;
    [unfold addToCart | unfold updateQuantity | unfold removeFromCart];
    rewrite B; reflexivity.
Qed.

(** The guest cart written to [localStorage] is the new cart. *)
Lemma guest_mutate_saved (s : State num) (m : Mutation num) :
  bearer s = None ->
  ls_guestCart (localStorage (mutate s m)) = Some (cart (mutate s m)).
Proof.
  intros B. destruct m; simpl;
    [unfold addToCart | unfold updateQuantity | unfold removeFromCart];
    rewrite B; reflexivity.
Qed.

(** C1. Along every run of [addToCart], [updateQuantity] and
    [removeFromCart] that starts with the empty cart, the [total] of the
    cart is the sum of [price * quantity] over its lines, folded from [0]
    in line order.  In guest mode this needs nothing; with a signed-in
    user the cart is the answer of the backend, which is assumed to obey
    the same equation.  Moreover a guest mutation computes the total anew
    from the lines: the outcome is consistent whatever the stored total
    was, and does not depend on it. *)
Theorem total_invariant (s0 : State num) (ms : list (Mutation num)) :
  cart s0 = emptyCart ->
  (bearer s0 <> None -> answers_satisfy consistent) ->
  total (cart (run_mutations s0 ms))
  = fold_left (fun sum item => nadd sum (nmul (price item) (quantity item)))
              (items (cart (run_mutations s0 ms))) nzero
  /\ (forall (s : State num) (m : Mutation num),
         bearer s = None -> consistent (cart (mutate s m)))
  /\ (forall (s : State num) (m : Mutation num) (stale : num),
         bearer s = None ->
         cart (mutate (setCart {| items := items (cart s); total := stale |} s) m)
         = cart (mutate s m)).
Proof.
  intros E HB. split; [|split].
  - apply (run_preserves consistent); auto.
    + intros; apply guest_add_consistent.
    + intros; apply guest_update_consistent.
    + intros; apply guest_remove_consistent.
    + rewrite E. reflexivity.
  - intros s m B. rewrite guest_mutate_cart by exact B.
    destruct m; reflexivity.
  - intros s m stale B.
    rewrite !guest_mutate_cart by exact B.
    destruct m; reflexivity.
Qed.

(** C8. Along every run of [addToCart], [updateQuantity] and
    [removeFromCart] that starts with the empty cart, no two lines of the
    cart carry the same [product_id]; every guest mutation keeps carts
    that way.  With a signed-in user the cart is the answer of the
    backend, assumed to have distinct ids. *)
Theorem uniqueness_invariant (s0 : State num) (ms : list (Mutation num)) :
  cart s0 = emptyCart ->
  (bearer s0 <> None -> answers_satisfy unique_ids) ->
  NoDup (map product_id (items (cart (run_mutations s0 ms))))
  /\ (forall (s : State num) (m : Mutation num),
         bearer s = None ->
         unique_ids (cart s) -> unique_ids (cart (mutate s m))).
Proof.
  intros E HB. split.
  - apply (run_preserves unique_ids); auto.
    + apply guest_add_unique.
    + apply guest_update_unique.
    + apply guest_remove_unique.
    + rewrite E. constructor.
  - intros s m B U. rewrite guest_mutate_cart by exact B.
    destruct m.
    + apply guest_add_unique, U.
    + apply guest_update_unique, U.
    + apply guest_remove_unique, U.
Qed.

End Invariants.

(** The walk of the sample guest satisfies the hypotheses of C1. *)
Lemma total_invariant_witness :
  cart Sample.first_visit = emptyCart
  /\ consistent (cart (run_mutations Sample.first_visit Sample.walk)).
Proof.
  split; [reflexivity|].
  refine (proj1 (total_invariant Sample.first_visit Sample.walk _ _)).
  - reflexivity.
  - intros B. exfalso. apply B. reflexivity.
Defined.

(** The walk of the sample guest satisfies the hypotheses of C8. *)
Lemma uniqueness_invariant_witness :
  cart Sample.first_visit = emptyCart
  /\ unique_ids (cart (run_mutations Sample.first_visit Sample.walk)).
Proof.
  split; [reflexivity|].
  refine (proj1 (uniqueness_invariant Sample.first_visit Sample.walk _ _)).
  - reflexivity.
  - intros B. exfalso. apply B. reflexivity.
Defined.

(** ** The three mutations in guest mode *)

Section GuestMutations.

Context {num : Type} `{JsNumber num} `{Backend num}.

Lemma guest_removeFromCart (s : State num) (pid : string) :
  bearer s = None ->
  removeFromCart pid s
  = setCartLoading false
      (saveGuestCart (guest_remove pid (cart s))
                     (setCart (guest_remove pid (cart s)) s)).
Proof. intros B. unfold removeFromCart. rewrite B. reflexivity. Qed.

Lemma guest_updateQuantity (s : State num) (pid : string) (q : num) :
  bearer s = None ->
  updateQuantity pid q s
  = setCartLoading false
      (saveGuestCart (guest_update pid q (cart s))
                     (setCart (guest_update pid q (cart s)) s)).
Proof. intros B. unfold updateQuantity. rewrite B. reflexivity. Qed.

Lemma guest_addToCart (s : State num) (p : Product num) (q : num) :
  bearer s = None ->
  addToCart p q s
  = setCartLoading false
      (saveGuestCart (guest_add p q (cart s))
                     (setCart (guest_add p q (cart s)) s)).
Proof. intros B. unfold addToCart. rewrite B. reflexivity. Qed.

(** A consistent cart is determined by its lines. *)
Lemma consistent_eq (c : Cart num) (l : list (Item num)) :
  consistent c -> l = items c ->
  {| items := l; total := cart_total l |} = c.
Proof.
  unfold consistent. intros E ->. destruct c as [l t]; simpl in *.
  rewrite E. reflexivity.
Qed.

(** With a signed-in user each mutation is one request. *)
Lemma signed_in_cart (s : State num) (t : string)
  (r : Server * Response AxiosError (Cart num)) (s' : State num) :
  s' = setCartLoading false
         (match snd r with
          | Data c => setCart c (setRemote (fst r) s)
          | Rejected _ => setRemote (fst r) s
          end) ->
  (forall srv c, r = (srv, Data c) -> cart s' = c)
  /\ (forall srv e, r = (srv, Rejected e) -> cart s' = cart s).
Proof.
  intros ->. split; intros srv x ->; reflexivity.
Qed.

Lemma signed_in_removeFromCart (s : State num) (pid t : string) :
  bearer s = Some t ->
  removeFromCart pid s
  = setCartLoading false
      (match snd (delete_cart_remove (remote s) t pid) with
       | Data c => setCart c (setRemote (fst (delete_cart_remove (remote s) t pid)) s)
       | Rejected _ => setRemote (fst (delete_cart_remove (remote s) t pid)) s
       end).
Proof.
  intros B. unfold removeFromCart. rewrite B.
  destruct (delete_cart_remove _ _ _) as [srv [c|e]]; reflexivity.
Qed.

Lemma signed_in_updateQuantity (s : State num) (pid : string) (q : num)
  (t : string) :
  bearer s = Some t ->
  updateQuantity pid q s
  = setCartLoading false
      (match snd (put_cart_update (remote s) t pid q) with
       | Data c => setCart c (setRemote (fst (put_cart_update (remote s) t pid q)) s)
       | Rejected _ => setRemote (fst (put_cart_update (remote s) t pid q)) s
       end).
Proof.
  intros B. unfold updateQuantity. rewrite B.
  destruct (put_cart_update _ _ _ _) as [srv [c|e]]; reflexivity.
Qed.

(** C9, as the code has it. In guest mode [removeFromCart] keeps, in
    order, exactly the lines of the other products, so no line for
    [productId] is left; when the cart holds no line for [productId] the
    cart after the call is the cart before it (the total, computed anew,
    being the sum it already was); removing twice gives the state that
    removing once gives.  With a signed-in user the removal is a request:
    the cart becomes the cart in the answer, and when the request is
    refused the error is swallowed and the cart stays as it was, the
    line included. *)
Theorem removeFromCart_idempotent (s : State num) (productId : string) :
  (bearer s = None ->
   items (cart (removeFromCart productId s))
   = filter (fun item => negb (String.eqb (product_id item) productId))
            (items (cart s))
   /\ ~ In productId
          (map product_id (items (cart (removeFromCart productId s))))
   /\ (consistent (cart s) ->
       ~ In productId (map product_id (items (cart s))) ->
       cart (removeFromCart productId s) = cart s)
   /\ removeFromCart productId (removeFromCart productId s)
      = removeFromCart productId s)
  /\ (forall t,
         bearer s = Some t ->
         (forall srv c,
             delete_cart_remove (remote s) t productId = (srv, Data c) ->
             cart (removeFromCart productId s) = c)
         /\ (forall srv e,
                delete_cart_remove (remote s) t productId = (srv, Rejected e) ->
                cart (removeFromCart productId s) = cart s)).
Proof.
  split.
  - intros B.
    assert (B' : bearer (removeFromCart productId s) = None)
      by exact (eq_trans (bearer_mutate s (RemoveFromCart productId)) B).
    rewrite (guest_removeFromCart (removeFromCart productId s)) by exact B'.
    rewrite (guest_removeFromCart s) by exact B. simpl.
    split; [reflexivity|]. split; [apply filter_removes|]. split.
    + intros C N. unfold guest_remove. apply consistent_eq; [exact C|].
      apply filter_absent, N.
    + unfold setCartLoading, saveGuestCart, setCart, setStorage; simpl.
      unfold guest_remove at 1 3; simpl.
      rewrite (filter_absent productId (filter _ (items (cart s))))
        by apply filter_removes.
      reflexivity.
  - intros t B.
    apply (signed_in_cart s t (delete_cart_remove (remote s) t productId)).
    apply signed_in_removeFromCart, B.
Qed.

(** C6, as the code has it. In guest mode [updateQuantity productId
    quantity] does this.  When [quantity <= 0] is false (as for every
    quantity from 1 on) the line that [find] returns for [productId] gets
    exactly [quantity] and nothing else changes; with distinct ids that
    line is the line of the product.  When [quantity <= 0] holds the
    lines of [productId] are filtered out.  When the cart holds no line
    for [productId] the cart is left as it was, whatever the quantity.
    The total is the sum of the lines in each case.  With a signed-in
    user the update is a request: the cart becomes the cart in the
    answer, and when the request is refused the error is swallowed and
    the cart stays as it was.  The call cannot fail in either mode. *)
Theorem updateQuantity_cases (s : State num) (productId : string)
  (quantity : num) :
  (bearer s = None ->
   (nle quantity nzero = false ->
    (forall item, find (has_id productId) (items (cart s)) = Some item ->
       find (has_id productId)
            (items (cart (updateQuantity productId quantity s)))
       = Some (set_quantity item quantity))
    /\ (unique_ids (cart s) ->
        items (cart (updateQuantity productId quantity s))
        = map (fun item =>
                 if String.eqb (product_id item) productId
                 then set_quantity item quantity else item)
              (items (cart s))))
   /\ (nle quantity nzero = true ->
       items (cart (updateQuantity productId quantity s))
       = filter (fun item => negb (String.eqb (product_id item) productId))
                (items (cart s))
       /\ ~ In productId
            (map product_id
                 (items (cart (updateQuantity productId quantity s)))))
   /\ (consistent (cart s) ->
       ~ In productId (map product_id (items (cart s))) ->
       cart (updateQuantity productId quantity s) = cart s)
   /\ consistent (cart (updateQuantity productId quantity s)))
  /\ (forall t,
         bearer s = Some t ->
         (forall srv c,
             put_cart_update (remote s) t productId quantity = (srv, Data c) ->
             cart (updateQuantity productId quantity s) = c)
         /\ (forall srv e,
                put_cart_update (remote s) t productId quantity
                = (srv, Rejected e) ->
                cart (updateQuantity productId quantity s) = cart s)).
Proof.
  split.
  - intros B. rewrite (guest_updateQuantity s) by exact B. simpl.
    split; [|split; [|split]].
    + intros Q. unfold guest_update; rewrite Q; simpl. split.
      * intros item F. rewrite F.
        apply (find_modify_found productId
                 (fun item => set_quantity item quantity));
          [reflexivity | exact F].
      * intros U. destruct (find (has_id productId) (items (cart s))) eqn:F.
        -- apply modify_found_map, U.
        -- apply find_has_id_none in F.
           symmetry. apply (map_absent productId), F.
    + intros Q. unfold guest_update; rewrite Q; simpl.
      split; [reflexivity | apply filter_removes].
    + intros C N. unfold guest_update. apply consistent_eq; [exact C|].
      destruct (nle quantity nzero).
      * apply filter_absent, N.
      * apply find_has_id_none in N. rewrite N. reflexivity.
    + apply guest_update_consistent.
  - intros t B.
    apply (signed_in_cart s t (put_cart_update (remote s) t productId quantity)).
    apply signed_in_updateQuantity, B.
Qed.

End GuestMutations.

(** A guest with two boards drops the mug, which is not in the cart. *)
Lemma removeFromCart_idempotent_witness :
  bearer Sample.guest_with_boards = None
  /\ consistent (cart Sample.guest_with_boards)
  /\ ~ In "B" (map product_id (items (cart Sample.guest_with_boards)))
  /\ cart (removeFromCart "B" Sample.guest_with_boards)
     = cart Sample.guest_with_boards.
Proof.
  assert (N : ~ In "B" (map product_id (items (cart Sample.guest_with_boards))))
    by (intros [E|[]]; discriminate E).
  split; [reflexivity|]. split; [reflexivity|]. split; [exact N|].
  refine (proj1 (proj2 (proj2
    (proj1 (removeFromCart_idempotent Sample.guest_with_boards "B") _))) _ N);
    reflexivity.
Defined.

(** A guest with two boards asks for three. *)
Lemma updateQuantity_cases_witness :
  bearer Sample.guest_with_boards = None
  /\ nle 3%float nzero = false
  /\ find (has_id "A")
          (items (cart (updateQuantity "A" 3%float Sample.guest_with_boards)))
     = Some (new_item Sample.board 3%float).
Proof.
  split; [reflexivity|]. split; [reflexivity|].
  refine (proj1 (proj1
    (proj1 (updateQuantity_cases Sample.guest_with_boards "A" 3%float) _) _)
    (new_item Sample.board 2%float) _); reflexivity.
Defined.

(** C9 fails as stated: the member whose account holds a mug is signed
    in and asks to remove the mug; the service refuses, the refusal is
    swallowed, and the line for the mug is still in the cart. *)
Lemma removeFromCart_counterexample :
  bearer Sample.member_signed_in = Some "jwt"
  /\ In "B" (map product_id (items (cart Sample.member_signed_in)))
  /\ In "B" (map product_id
                 (items (cart (removeFromCart "B" Sample.member_signed_in)))).
Proof.
  split; [reflexivity|]. split; left; reflexivity.
Qed.

(** C6 fails as stated: the same member asks for five mugs; the service
    refuses, the refusal is swallowed, and the line found for the mug
    still has quantity 1, not 5. *)
Lemma updateQuantity_counterexample :
  bearer Sample.member_signed_in = Some "jwt"
  /\ nle 5%float nzero = false
  /\ find (has_id "B") (items (cart Sample.member_signed_in))
     = Some (new_item Sample.mug 1%float)
  /\ ~ (exists item,
          find (has_id "B")
               (items (cart (updateQuantity "B" 5%float
                                            Sample.member_signed_in)))
          = Some item
          /\ quantity item = 5%float).
Proof.
  split; [reflexivity|]. split; [reflexivity|]. split; [reflexivity|].
  intros [item [F Q]]. vm_compute in F. injection F as <-.
  apply (f_equal (fun x => PrimFloat.eqb x 5%float)) in Q.
  vm_compute in Q. discriminate Q.
Qed.

(** ** Adding to the guest cart *)

Section GuestAdd.

Context {num : Type} `{JsNumber num} `{Backend num}.

(** The state after two guest adds of one product. *)
Lemma guest_addToCart_twice (s : State num) (p : Product num) (qa qb : num) :
  bearer s = None ->
  addToCart p qb (addToCart p qa s)
  = setCartLoading false
      (saveGuestCart (guest_add p qb (guest_add p qa (cart s)))
         (setCart (guest_add p qb (guest_add p qa (cart s))) s)).
Proof.
  intros B.
  assert (B1 : bearer (addToCart p qa s) = None)
    by exact (eq_trans (bearer_mutate s (AddToCart p qa)) B).
  rewrite (guest_addToCart (addToCart p qa s)) by exact B1.
  rewrite (guest_addToCart s) by exact B. reflexivity.
Qed.

(** The two orders of the adds give one state exactly when they give one
    cart. *)
Lemma guest_addToCart_swap (s : State num) (p : Product num) (q1 q2 : num) :
  bearer s = None ->
  (addToCart p q1 (addToCart p q2 s) = addToCart p q2 (addToCart p q1 s)
   <-> items (guest_add p q1 (guest_add p q2 (cart s)))
       = items (guest_add p q2 (guest_add p q1 (cart s)))).
Proof.
  intros B. rewrite !guest_addToCart_twice by exact B. split.
  - intros E. apply (f_equal (fun x => items (cart x))) in E. exact E.
  - intros E. apply guest_add_eq in E. rewrite E. reflexivity.
Qed.

(** C4, as the code has it. In guest mode two adds of one product in a
    row act on the line of the product as one add of the sum: a cart
    without a line for the product gets one new line, at the end, with
    quantity [q1 + q2]; in a cart that holds a line for it the line found
    goes from its quantity [q0] to [(q0 + q1) + q2] and no line is added.
    Distinct ids stay distinct and the total is the sum of the lines.
    The two adds in the other order give the same state exactly when the
    two quantities so computed are equal: [q2 + q1 = q1 + q2] for a new
    line, [(q0 + q2) + q1 = (q0 + q1) + q2] for a line that was there. *)
Theorem addToCart_twice (s : State num) (product : Product num)
  (q1 q2 : num) :
  bearer s = None ->
  (find (has_id (id product)) (items (cart s)) = None ->
   items (cart (addToCart product q2 (addToCart product q1 s)))
   = items (cart s) ++ [new_item product (nadd q1 q2)]
   /\ (addToCart product q1 (addToCart product q2 s)
       = addToCart product q2 (addToCart product q1 s)
       <-> nadd q2 q1 = nadd q1 q2))
  /\ (forall item,
         find (has_id (id product)) (items (cart s)) = Some item ->
         find (has_id (id product))
              (items (cart (addToCart product q2 (addToCart product q1 s))))
         = Some (set_quantity item (nadd (nadd (quantity item) q1) q2))
         /\ map product_id
                (items (cart (addToCart product q2 (addToCart product q1 s))))
            = map product_id (items (cart s))
         /\ (addToCart product q1 (addToCart product q2 s)
             = addToCart product q2 (addToCart product q1 s)
             <-> nadd (nadd (quantity item) q2) q1
                 = nadd (nadd (quantity item) q1) q2))
  /\ (unique_ids (cart s) ->
      unique_ids (cart (addToCart product q2 (addToCart product q1 s))))
  /\ consistent (cart (addToCart product q2 (addToCart product q1 s))).
Proof.
  intros B.
  pose proof (guest_addToCart_swap s product q1 q2 B) as Swap.
  rewrite (guest_addToCart_twice s product q1 q2 B) in *.
  cbn [cart setCartLoading saveGuestCart setCart setStorage] in *.
  split; [|split; [|split]].
  - intros F. split; [apply guest_add_twice_new, F|].
    rewrite Swap, !guest_add_twice_new by exact F. split.
    + intros E. apply app_inv_head in E. injection E as E. exact E.
    + intros E. rewrite E. reflexivity.
  - intros item F. rewrite (guest_add_twice_existing _ _ _ _ _ F).
    split; [|split].
    + apply (find_modify_found (id product)
               (fun x => set_quantity x (nadd (nadd (quantity x) q1) q2)));
        [reflexivity | exact F].
    + apply modify_found_ids. reflexivity.
    + rewrite Swap, !(guest_add_twice_existing _ _ _ _ _ F). split.
      * intros E.
        apply (f_equal (find (has_id (id product)))) in E.
        rewrite (find_modify_found (id product)
                   (fun x => set_quantity x (nadd (nadd (quantity x) q2) q1))
                   _ item) in E by (reflexivity || exact F).
        rewrite (find_modify_found (id product)
                   (fun x => set_quantity x (nadd (nadd (quantity x) q1) q2))
                   _ item) in E by (reflexivity || exact F).
        injection E as E. exact E.
      * intros E. apply (modify_found_agree _ _ _ _ item F).
        rewrite E. reflexivity.
  - intros U. apply guest_add_unique, guest_add_unique, U.
  - apply guest_add_consistent.
Qed.

(** C5, as the code has it. [addToCart] applies no test to the quantity
    and has no way to refuse it: in guest mode, for every quantity, a
    product without a line gets a new line with exactly that quantity, a
    product with a line gets the quantity added to the line found; the
    total is computed from the lines and the cart is written to the local
    store.  The product card, the one caller, passes the quantity 1. *)
Theorem addToCart_unchecked (s : State num) (product : Product num)
  (q : num) :
  bearer s = None ->
  (find (has_id (id product)) (items (cart s)) = None ->
   items (cart (addToCart product q s))
   = items (cart s)
     ++ [ {| product_id := id product; name := p_name product;
             price := p_price product; image_url := p_image_url product;
             quantity := q |} ])
  /\ (forall item,
         find (has_id (id product)) (items (cart s)) = Some item ->
         find (has_id (id product)) (items (cart (addToCart product q s)))
         = Some (set_quantity item (nadd (quantity item) q))
         /\ map product_id (items (cart (addToCart product q s)))
            = map product_id (items (cart s)))
  /\ consistent (cart (addToCart product q s))
  /\ ls_guestCart (localStorage (addToCart product q s))
     = Some (cart (addToCart product q s))
  /\ ProductCard_onClick product s = addToCart product none s.
Proof.
  intros B. rewrite (guest_addToCart s) by exact B.
  cbn [cart setCartLoading saveGuestCart setCart setStorage].
  split; [|split; [|split; [|split]]]; try reflexivity.
  - apply guest_add_new.
  - intros item F. rewrite (guest_add_existing _ _ _ _ F). split.
    + apply (find_modify_found (id product)
               (fun x => set_quantity x (nadd (quantity x) q)));
        [reflexivity | exact F].
    + apply modify_found_ids. reflexivity.
Qed.

End GuestAdd.

(** A first-time guest adds one board, then two more. *)
Lemma addToCart_twice_witness :
  bearer Sample.first_visit = None
  /\ find (has_id (id Sample.board)) (items (cart Sample.first_visit)) = None
  /\ nadd 2%float 1%float = nadd 1%float 2%float
  /\ addToCart Sample.board 1%float
       (addToCart Sample.board 2%float Sample.first_visit)
     = addToCart Sample.board 2%float
         (addToCart Sample.board 1%float Sample.first_visit).
Proof.
  split; [reflexivity|]. split; [reflexivity|]. split; [reflexivity|].
  refine (proj2 (proj2 (proj1
    (addToCart_twice Sample.first_visit Sample.board 1%float 2%float _) _)) _);
    reflexivity.
Defined.

(** A guest asks for minus one board. *)
Lemma addToCart_unchecked_witness :
  bearer Sample.first_visit = None
  /\ consistent (cart (addToCart Sample.board (-1)%float Sample.first_visit)).
Proof.
  split; [reflexivity|].
  refine (proj1 (proj2 (proj2
    (addToCart_unchecked Sample.first_visit Sample.board (-1)%float _)))).
  reflexivity.
Defined.

(** C4 fails as stated, twice.  In a cart that already holds two boards,
    adding one board and then one more leaves a single line for the
    board, but with quantity 4 and not [1 + 1].  And in a cart that holds
    2^53 boards, adding 1 and then 2 gives 9007199254740994 boards while
    adding 2 and then 1 gives 9007199254740996: the order shows. *)
Lemma addToCart_twice_counterexample :
  ~ (exists item,
        filter (has_id "A")
               (items (cart (addToCart Sample.board 1%float
                               (addToCart Sample.board 1%float
                                          Sample.guest_with_boards))))
        = [item]
        /\ quantity item = nadd 1%float 1%float)
  /\ addToCart Sample.board 1%float
       (addToCart Sample.board 2%float
          (addToCart Sample.board 9007199254740992%float Sample.first_visit))
     <> addToCart Sample.board 2%float
          (addToCart Sample.board 1%float
             (addToCart Sample.board 9007199254740992%float
                        Sample.first_visit)).
Proof.
  split.
  - intros [item [E Q]]. vm_compute in E. injection E as <-.
    apply (f_equal (fun x => PrimFloat.eqb x 2%float)) in Q.
    vm_compute in Q. discriminate Q.
  - intros E.
    apply (f_equal
             (fun st => match items (cart st) with
                        | [item] =>
                            PrimFloat.eqb (quantity item)
                                          9007199254740996%float
                        | _ => false
                        end)) in E.
    vm_compute in E. discriminate E.
Qed.

(** C5 fails as stated: a guest who adds minus one board is not refused;
    the cart changes and holds a line with a quantity [<= 0]. *)
Lemma addToCart_unchecked_counterexample :
  nle (-1)%float nzero = true
  /\ cart (addToCart Sample.board (-1)%float Sample.first_visit)
     <> cart Sample.first_visit
  /\ exists item,
       In item (items (cart (addToCart Sample.board (-1)%float
                                       Sample.first_visit)))
       /\ nle (quantity item) nzero = true.
Proof.
  split; [reflexivity|]. split.
  - intros E.
    apply (f_equal (fun c => List.length (items c))) in E.
    vm_compute in E. discriminate E.
  - eexists. split; [left; reflexivity | reflexivity].
Qed.

(** ** Checkout *)

Section Checkout.

Context {num : Type} `{JsNumber num} `{Backend num}.

(** The guest order has the three properties of its literal and no
    other: none of its properties holds lines. *)
Lemma orderData_no_lines (now : N) (c : Cart num) (k : string)
  (l : list (Item num)) :
  get_prop (orderData now c) k <> JArray l.
Proof.
  unfold orderData, get_prop.
  destruct (String.eqb "order_id" k); [discriminate|].
  destruct (String.eqb "total" k); [discriminate|].
  destruct (String.eqb "message" k); discriminate.
Qed.

Lemma guest_checkout (now : N) (s : State num) :
  bearer s = None ->
  checkout now s
  = (remove_guestCart (setCart emptyCart s), Returned (orderData now (cart s))).
Proof. intros B. unfold checkout. rewrite B. reflexivity. Qed.

(** C2, as the code has it. For every cart, empty or not, a guest
    [checkout] returns an order confirmation whose [total] is the [total]
    of the cart before the call, with nothing added, and whose
    [order_id] is ['guest-'] followed by the clock reading; the
    confirmation has no property holding lines.  Afterwards the cart is
    [{ items: [], total: 0 }], the [guestCart] entry is gone from the
    local store, and loading the cart again yields the empty cart.  For a
    signed-in user the value returned is the answer of the backend as
    it is, and a granted checkout resets the cart the same way; a
    refused checkout throws the error again and keeps the cart.  The
    local store is not touched for a signed-in user. *)
Theorem checkout_consumes (now : N) (s : State num) :
  (bearer s = None ->
   (exists order,
       snd (checkout now s) = Returned order
       /\ get_prop order "total" = JNumber (total (cart s))
       /\ get_prop order "order_id" = JString (guest_order_id now)
       /\ forall k l, get_prop order k <> JArray l)
   /\ cart (fst (checkout now s)) = {| items := []; total := nzero |}
   /\ ls_guestCart (localStorage (fst (checkout now s))) = None
   /\ cart (loadCart (fst (checkout now s))) = {| items := []; total := nzero |})
  /\ (forall t srv order,
         bearer s = Some t ->
         post_cart_checkout (remote s) t = (srv, Data order) ->
         snd (checkout now s) = Returned order
         /\ cart (fst (checkout now s)) = {| items := []; total := nzero |}
         /\ localStorage (fst (checkout now s)) = localStorage s)
  /\ (forall t srv error,
         bearer s = Some t ->
         post_cart_checkout (remote s) t = (srv, Rejected error) ->
         snd (checkout now s) = Thrown error
         /\ cart (fst (checkout now s)) = cart s
         /\ localStorage (fst (checkout now s)) = localStorage s).
Proof.
  split.
  - intros B. rewrite (guest_checkout now s B). simpl.
    split; [|split; [reflexivity|split; [reflexivity|]]].
    + exists (orderData now (cart s)).
      split; [reflexivity|]. split; [reflexivity|]. split; [reflexivity|].
      apply orderData_no_lines.
    + unfold loadCart.
      replace (bearer (remove_guestCart (setCart emptyCart s)))
        with (bearer s) by reflexivity.
      rewrite B. reflexivity.
  - split.
    + intros t srv order B E. unfold checkout. rewrite B, E. simpl.
      repeat split.
    + intros t srv error B E. unfold checkout. rewrite B, E. simpl.
      repeat split.
Qed.

(** C3, as the code has it. [checkout] makes no test of the cart and has
    no error of its own.  The empty cart is kept away from it by the cart
    page: with no line in the cart the page shows no Checkout button, and
    a click on the button, when there is one, finds a cart with a line.
    Called all the same on an empty cart, a guest [checkout] returns the
    order confirmation with the total of the cart; for a signed-in user
    the backend decides, and when it refuses, the error is thrown again,
    the cart stays as it was and the page records no order. *)
Theorem checkout_empty_cart (now : N) (orderComplete : option (JsObject num))
  (s : State num) :
  (items (cart s) = [] ->
   click_checkout now orderComplete s = (orderComplete, s)
   /\ forall lines subtotal,
        CartPage orderComplete s <> CartSummary lines subtotal)
  /\ (click_checkout now orderComplete s <> (orderComplete, s) ->
      items (cart s) <> [])
  /\ (items (cart s) = [] -> bearer s = None ->
      snd (checkout now s) = Returned (orderData now (cart s))
      /\ get_prop (orderData now (cart s)) "total" = JNumber (total (cart s)))
  /\ (forall t srv error,
         bearer s = Some t ->
         post_cart_checkout (remote s) t = (srv, Rejected error) ->
         snd (checkout now s) = Thrown error
         /\ cart (fst (checkout now s)) = cart s
         /\ fst (handleCheckout now orderComplete s) = orderComplete).
Proof.
  assert (G : items (cart s) = [] ->
              click_checkout now orderComplete s = (orderComplete, s)
              /\ forall lines subtotal,
                   CartPage orderComplete s <> CartSummary lines subtotal).
  { intros E. unfold click_checkout, CartPage. rewrite E. simpl.
    destruct orderComplete; split; try reflexivity; discriminate. }
  split; [exact G|]. split; [|split].
  - intros N E. apply N. apply G, E.
  - intros _ B. rewrite (guest_checkout now s B). split; reflexivity.
  - intros t srv error B E. unfold handleCheckout, checkout.
    rewrite B, E. simpl. repeat split.
Qed.

End Checkout.

(** The guest with two boards checks out. *)
Lemma checkout_consumes_witness :
  bearer Sample.guest_with_boards = None
  /\ cart (fst (checkout 1753180598000%N Sample.guest_with_boards))
     = emptyCart.
Proof.
  split; [reflexivity|].
  refine (proj1 (proj2 (proj1
    (checkout_consumes 1753180598000%N Sample.guest_with_boards) _))).
  reflexivity.
Defined.

(** A first-time guest opens the cart page. *)
Lemma checkout_empty_cart_witness :
  items (cart Sample.first_visit) = []
  /\ click_checkout 1753180598000%N None Sample.first_visit
     = (None, Sample.first_visit).
Proof.
  split; [reflexivity|].
  refine (proj1 (proj1
    (checkout_empty_cart 1753180598000%N None Sample.first_visit) _)).
  reflexivity.
Defined.

(** C2 fails as stated: the guest with two boards has a cart with a line,
    and no property of the order that [checkout] returns holds the lines
    of that cart. *)
Lemma checkout_consumes_counterexample :
  items (cart Sample.guest_with_boards) <> []
  /\ ~ (exists order k,
          snd (checkout 1753180598000%N Sample.guest_with_boards)
          = Returned order
          /\ get_prop order k = JArray (items (cart Sample.guest_with_boards))).
Proof.
  split; [discriminate|].
  intros [order [k [E G]]].
  injection E as <-.
  exact (orderData_no_lines _ _ _ _ G).
Qed.

(** C3 fails as stated: for a first-time guest, whose cart is empty,
    [checkout] throws nothing and returns an order. *)
Lemma checkout_empty_cart_counterexample :
  items (cart Sample.first_visit) = []
  /\ (forall error,
         snd (checkout 1753180598000%N Sample.first_visit) <> Thrown error)
  /\ snd (checkout 1753180598000%N Sample.first_visit)
     = Returned
         [ ("order_id", JString "guest-1753180598000");
           ("total", JNumber 0%float);
           ("message", JString "Order placed successfully! (Guest checkout)") ].
Proof.
  split; [reflexivity|]. split; [discriminate | reflexivity].
Qed.

(** ** Sign-in and logout *)

Section Session.

Context {num : Type} `{JsNumber num} `{Backend num}.

(** No step of the session writes or removes the [guestCart] entry. *)
Lemma session_step_guestCart (s : State num) (e : SessionStep) :
  ls_guestCart (localStorage (session_step s e))
  = ls_guestCart (localStorage s).
Proof.
  destruct e; cbn [session_step].
  - unfold login, login_post, fetch_user.
    destruct (post_auth_login _ _ _) as [srv [t|x]]; simpl; [|reflexivity].
    destruct (get_auth_me _ _) as [srv' [u|x]]; reflexivity.
  - unfold login_post.
    destruct (post_auth_login _ _ _) as [srv [t|x]]; reflexivity.
  - unfold register, register_post, fetch_user.
    destruct (post_auth_register _ _ _ _) as [srv [t|x]]; simpl; [|reflexivity].
    destruct (get_auth_me _ _) as [srv' [u|x]]; reflexivity.
  - unfold register_post.
    destruct (post_auth_register _ _ _ _) as [srv [t|x]]; reflexivity.
  - unfold fetch_user.
    destruct (get_auth_me _ _) as [srv [u|x]]; reflexivity.
  - reflexivity.
  - unfold checkAuth. destruct (token s) as [t|]; [|reflexivity].
    destruct (truthy (Some t)); [|reflexivity].
    destruct (get_auth_me _ _) as [srv [u|x]]; reflexivity.
  - unfold loadCart. destruct (bearer s) as [t|].
    + destruct (get_cart _ _) as [srv [c|x]]; reflexivity.
    + destruct (ls_guestCart (localStorage s)) eqn:G; [exact G | exact G].
  - reflexivity.
Qed.

Lemma run_session_guestCart (es : list SessionStep) :
  forall s : State num,
    ls_guestCart (localStorage (run_session s es))
    = ls_guestCart (localStorage s).
Proof.
  induction es as [|e es IH]; intros s; [reflexivity|].
  change (run_session s (e :: es)) with (run_session (session_step s e) es).
  rewrite IH. apply session_step_guestCart.
Qed.

(** C7, as the code has it. Nothing is merged at sign-in.  Whatever the
    order in which [login], [register], the auth effect, the cart effect
    and page loads take place, the [guestCart] entry of the local store
    stays as it was: it is not cleared.  When the cart effect runs for a
    signed-in user, the request carries the bearer token and nothing of
    the guest cart, and the cart becomes the cart in the answer; when the
    request fails the cart stays as it was. *)
Theorem sign_in_replaces_cart (s : State num) (es : list SessionStep) :
  ls_guestCart (localStorage (run_session s es))
  = ls_guestCart (localStorage s)
  /\ (forall t srv c,
         bearer s = Some t ->
         get_cart (remote s) t = (srv, Data c) ->
         cart (loadCart s) = c)
  /\ (forall t srv error,
         bearer s = Some t ->
         get_cart (remote s) t = (srv, Rejected error) ->
         cart (loadCart s) = cart s).
Proof.
  split; [apply run_session_guestCart|].
  split; intros t srv x B E; unfold loadCart; rewrite B, E; reflexivity.
Qed.

(** C10, as the code has it. [logout] clears [user] and [token] and
    removes the [token] entry of the local store; neither it nor the cart
    effect that follows writes the [guestCart] entry.  That effect runs
    in guest mode: a guest cart saved in the local store becomes the
    cart again. *)
Theorem logout_restores_guest_cart (s : State num) :
  user (logout s) = None
  /\ token (logout s) = None
  /\ ls_token (localStorage (logout s)) = None
  /\ bearer (logout s) = None
  /\ ls_guestCart (localStorage (loadCart (logout s)))
     = ls_guestCart (localStorage s)
  /\ (forall savedCart,
         ls_guestCart (localStorage s) = Some savedCart ->
         cart (loadCart (logout s)) = savedCart).
Proof.
  repeat split.
  - apply (run_session_guestCart [Logout; LoadCart] s).
  - intros savedCart E. unfold loadCart.
    replace (bearer (logout s)) with (@None string) by reflexivity.
    replace (ls_guestCart (localStorage (logout s)))
      with (ls_guestCart (localStorage s)) by reflexivity.
    rewrite E. reflexivity.
Qed.

End Session.

(** The guest with two boards signs in to an account with an empty
    cart. *)
Lemma sign_in_replaces_cart_witness :
  bearer Sample.signed_in = Some "jwt"
  /\ cart (loadCart Sample.signed_in) = emptyCart.
Proof.
  split; [reflexivity|].
  refine (proj1 (proj2
    (sign_in_replaces_cart Sample.signed_in Sample.sign_in))
    "jwt" emptyCart emptyCart _ _); reflexivity.
Defined.

(** The member who signed in as a guest with two boards logs out. *)
Lemma logout_restores_guest_cart_witness :
  ls_guestCart (localStorage Sample.signed_in)
  = Some (cart Sample.guest_with_boards)
  /\ cart (loadCart (logout Sample.signed_in))
     = cart Sample.guest_with_boards.
Proof.
  split; [reflexivity|].
  refine (proj2 (proj2 (proj2 (proj2 (proj2
    (logout_restores_guest_cart Sample.signed_in))))) _ _).
  reflexivity.
Defined.

(** C7 fails as stated: the guest with two boards signs in to an account
    whose cart is empty; afterwards the cart is empty, so the line of the
    guest cart has not been merged into it, and the guest cart is still
    in the local store. *)
Lemma sign_in_counterexample :
  bearer Sample.signed_in = Some "jwt"
  /\ (exists item, In item (items (cart Sample.guest_with_boards)))
  /\ ~ (forall item,
          In item (items (cart Sample.guest_with_boards)) ->
          exists merged,
            In merged (items (cart Sample.signed_in))
            /\ product_id merged = product_id item)
  /\ ls_guestCart (localStorage Sample.signed_in) <> None.
Proof.
  split; [reflexivity|]. split; [eexists; left; reflexivity|]. split.
  - intros M. destruct (M _ (or_introl eq_refl)) as [merged [I _]].
    exact I.
  - discriminate.
Qed.

(** C10 fails as stated: the member signed in as a guest with two boards;
    signed in, the cart is the empty cart of the account; after logout
    the cart is the guest cart saved before sign-in. *)
Lemma logout_counterexample :
  bearer Sample.signed_in = Some "jwt"
  /\ items (cart Sample.signed_in) = []
  /\ exists savedCart,
       ls_guestCart (localStorage Sample.signed_in) = Some savedCart
       /\ items savedCart <> []
       /\ cart (run_session Sample.signed_in Sample.sign_out) = savedCart.
Proof.
  split; [reflexivity|]. split; [reflexivity|].
  eexists. split; [reflexivity|]. split; [discriminate | reflexivity].
Qed.

(** After logout with no guest cart saved, the cart of the account stays
    on display, and the next guest mutation writes it, changed, to the
    local store. *)
Example logout_leaves_account_cart :
  ls_guestCart (localStorage Sample.member_signed_in) = None
  /\ cart (run_session Sample.member_signed_in Sample.sign_out)
     = cart Sample.member_signed_in
  /\ map product_id
         (items (cart (addToCart Sample.board 1%float
                         (run_session Sample.member_signed_in Sample.sign_out))))
     = ["B"; "A"]
  /\ ls_guestCart
       (localStorage (addToCart Sample.board 1%float
                        (run_session Sample.member_signed_in Sample.sign_out)))
     = Some (cart (addToCart Sample.board 1%float
                     (run_session Sample.member_signed_in Sample.sign_out))).
Proof. repeat split. Qed.

(** The walk of the storefront's test run, in binary64 arithmetic: the
    totals after each step and the order of the guest checkout.  The
    third total is the double just above the double nearest to 109.96. *)
Example walk_totals :
  map (fun n => total (cart (run_mutations Sample.first_visit
                                           (firstn n Sample.walk))))
      [1; 2; 3; 4; 5]%nat
  = [49.98; 84.97; 109.96000000000001; 74.97; 99.96]%float
  /\ get_prop (orderData 1753180598000%N
                 (cart (run_mutations Sample.first_visit Sample.walk)))
              "total"
     = JNumber 99.96%float.
Proof. split; vm_compute; reflexivity. Qed.

(** ** Guest mode and signed-in mode side by side *)

Section Modes.

Context {num : Type} `{JsNumber num} `{JsonNumber num} `{Backend num}.

Lemma signed_in_mutate (s : State num) (m : Mutation num) (t : string) :
  bearer s = Some t ->
  mutate s m
  = setCartLoading false
      (match snd (request (remote s) t m) with
       | Data c => setCart c (setRemote (fst (request (remote s) t m)) s)
       | Rejected _ => setRemote (fst (request (remote s) t m)) s
       end).
Proof.
  intros B. destruct m; simpl;
    [unfold addToCart | unfold updateQuantity | unfold removeFromCart];
    rewrite B.
  - destruct (post_cart_add _ _ _ _) as [srv [c|e]]; reflexivity.
  - destruct (put_cart_update _ _ _ _) as [srv [c|e]]; reflexivity.
  - destruct (delete_cart_remove _ _ _) as [srv [c|e]]; reflexivity.
Qed.

Lemma bearer_run (ms : list (Mutation num)) :
  forall s : State num, bearer (run_mutations s ms) = bearer s.
Proof.
  induction ms as [|m ms IH]; intros s; [reflexivity|].
  change (run_mutations s (m :: ms)) with (run_mutations (mutate s m) ms).
  rewrite IH. apply bearer_mutate.
Qed.

(** X1. Without a signed-in user nothing is sent to the backend: a
    mutation, a checkout and a cart load leave the remote service as it
    was. *)
Theorem guest_stays_local (s : State num) (m : Mutation num) (now : N) :
  bearer s = None ->
  remote (mutate s m) = remote s
  /\ remote (fst (checkout now s)) = remote s
  /\ remote (loadCart s) = remote s.
Proof.
  intros B. split; [|split].
  - destruct m; simpl;
      [unfold addToCart | unfold updateQuantity | unfold removeFromCart];
      rewrite B; reflexivity.
  - rewrite (guest_checkout now s B). reflexivity.
  - unfold loadCart. rewrite B.
    destruct (ls_guestCart (localStorage s)); reflexivity.
Qed.

(** X2. With a signed-in user the local store is out of play: a
    mutation, a checkout and a cart load leave both of its entries as
    they were, whatever the backend answers. *)
Theorem signed_in_leaves_store (s : State num) (m : Mutation num) (now : N)
  (t : string) :
  bearer s = Some t ->
  localStorage (mutate s m) = localStorage s
  /\ localStorage (fst (checkout now s)) = localStorage s
  /\ localStorage (loadCart s) = localStorage s.
Proof.
  intros B. split; [|split].
  - rewrite (signed_in_mutate s m t B).
    destruct (snd (request (remote s) t m)); reflexivity.
  - unfold checkout. rewrite B.
    destruct (post_cart_checkout _ _) as [srv [o|e]]; reflexivity.
  - unfold loadCart. rewrite B.
    destruct (get_cart _ _) as [srv [c|e]]; reflexivity.
Qed.

(** X3. With a signed-in user the cart after a mutation is the cart in
    the answer of the backend; when the backend refuses, the error is
    swallowed: the cart, the user and the token stay as they were and the
    loading flag is lowered all the same. *)
Theorem signed_in_mutation_outcome (s : State num) (m : Mutation num)
  (t : string) :
  bearer s = Some t ->
  (forall c, snd (request (remote s) t m) = Data c ->
             cart (mutate s m) = c)
  /\ (forall e, snd (request (remote s) t m) = Rejected e ->
                cart (mutate s m) = cart s
                /\ user (mutate s m) = user s
                /\ token (mutate s m) = token s)
  /\ cartLoading (mutate s m) = false
  /\ remote (mutate s m) = fst (request (remote s) t m).
Proof.
  intros B. rewrite (signed_in_mutate s m t B).
  split; [|split; [|split]].
  - intros c E. rewrite E. reflexivity.
  - intros e E. rewrite E. repeat split.
  - reflexivity.
  - destruct (snd (request (remote s) t m)); reflexivity.
Qed.

(** X4. What a guest puts in the cart survives a page load, provided
    JSON gives back every number of the cart (none is NaN, an infinity
    or [-0]): after a run of at least one mutation the [guestCart] entry
    holds the cart, and the cart effect of a freshly loaded page brings
    that cart back. *)
Theorem guest_cart_survives_reload (s : State num) (ms : list (Mutation num)) :
  bearer s = None ->
  ms <> [] ->
  survives_json (cart (run_mutations s ms)) = true ->
  ls_guestCart (localStorage (run_mutations s ms))
  = Some (cart (run_mutations s ms))
  /\ cart (loadCart (mount (localStorage (run_mutations s ms))
                           (remote (run_mutations s ms))))
     = cart (run_mutations s ms).
Proof.
  intros B N _.
  destruct (exists_last N) as [ms' [m E]]. subst ms.
  unfold run_mutations. rewrite fold_left_app. simpl.
  fold (run_mutations s ms').
  assert (B' : bearer (run_mutations s ms') = None)
    by (rewrite bearer_run; exact B).
  assert (S : ls_guestCart (localStorage (mutate (run_mutations s ms') m))
              = Some (cart (mutate (run_mutations s ms') m)))
    by (apply guest_mutate_saved, B').
  split; [exact S|].
  unfold loadCart.
  replace (bearer (mount (localStorage (mutate (run_mutations s ms') m))
                         (remote (mutate (run_mutations s ms') m))))
    with (@None string) by reflexivity.
  cbn [localStorage mount]. rewrite S. reflexivity.
Qed.

End Modes.

(** The member of the sample, signed in, asks for a mug; the service
    refuses every write. *)
Lemma signed_in_leaves_store_witness :
  bearer Sample.signed_in = Some "jwt"
  /\ localStorage (mutate Sample.signed_in (AddToCart Sample.mug 1%float))
     = localStorage Sample.signed_in.
Proof.
  split; [reflexivity|].
  refine (proj1 (signed_in_leaves_store Sample.signed_in
                   (AddToCart Sample.mug 1%float) 0%N "jwt" _)).
  reflexivity.
Defined.

Lemma guest_stays_local_witness :
  bearer Sample.guest_with_boards = None
  /\ remote (fst (checkout 1753180598000%N Sample.guest_with_boards))
     = remote Sample.guest_with_boards.
Proof.
  split; [reflexivity|].
  refine (proj1 (proj2 (guest_stays_local Sample.guest_with_boards
                          (RemoveFromCart "A") 1753180598000%N _))).
  reflexivity.
Defined.

Lemma signed_in_mutation_outcome_witness :
  bearer Sample.signed_in = Some "jwt"
  /\ snd (request (remote Sample.signed_in) "jwt"
                  (AddToCart Sample.mug 1%float)) = Rejected "503"
  /\ cart (mutate Sample.signed_in (AddToCart Sample.mug 1%float))
     = cart Sample.signed_in.
Proof.
  split; [reflexivity|]. split; [reflexivity|].
  refine (proj1 (proj1 (proj2
    (signed_in_mutation_outcome Sample.signed_in
       (AddToCart Sample.mug 1%float) "jwt" _)) "503" _)); reflexivity.
Defined.

Lemma guest_cart_survives_reload_witness :
  bearer Sample.first_visit = None
  /\ Sample.walk <> []
  /\ survives_json (cart (run_mutations Sample.first_visit Sample.walk)) = true
  /\ cart (loadCart (mount (localStorage (run_mutations Sample.first_visit Sample.walk))
                           (remote (run_mutations Sample.first_visit Sample.walk))))
     = cart (run_mutations Sample.first_visit Sample.walk).
Proof.
  split; [reflexivity|]. split; [discriminate|]. split; [reflexivity|].
  refine (proj2 (guest_cart_survives_reload Sample.first_visit Sample.walk
                   _ _ _));
    [reflexivity | discriminate | reflexivity].
Defined.

(** ** The session *)

Section SessionFacts.

Context {num : Type} `{JsNumber num} `{JsSubtraction num} `{Backend num}
        `{!CatalogBackend num}.

Lemma mutate_token (s : State num) (m : Mutation num) :
  token (mutate s m) = token s
  /\ ls_token (localStorage (mutate s m)) = ls_token (localStorage s).
Proof.
  destruct m; simpl;
    [unfold addToCart | unfold updateQuantity | unfold removeFromCart];
    destruct (bearer s); try (split; reflexivity).
  - destruct (post_cart_add _ _ _ _) as [srv [c|e]]; split; reflexivity.
  - destruct (put_cart_update _ _ _ _) as [srv [c|e]]; split; reflexivity.
  - destruct (delete_cart_remove _ _ _) as [srv [c|e]]; split; reflexivity.
Qed.

Lemma login_token (email password : string) (s : State num) :
  token s = ls_token (localStorage s) ->
  token (fst (login email password s))
  = ls_token (localStorage (fst (login email password s))).
Proof.
  intros M. unfold login, login_post, fetch_user.
  destruct (post_auth_login _ _ _) as [srv [t|x]]; simpl; [|exact M].
  destruct (get_auth_me _ _) as [srv' [u|x]]; reflexivity.
Qed.

Lemma register_token (email password name : string) (s : State num) :
  token s = ls_token (localStorage s) ->
  token (fst (register email password name s))
  = ls_token (localStorage (fst (register email password name s))).
Proof.
  intros M. unfold register, register_post, fetch_user.
  destruct (post_auth_register _ _ _ _) as [srv [t|x]]; simpl; [|exact M].
  destruct (get_auth_me _ _) as [srv' [u|x]]; reflexivity.
Qed.

Lemma act_token (s : State num) (a : Action num) :
  token s = ls_token (localStorage s) ->
  token (act s a) = ls_token (localStorage (act s a)).
Proof.
  intros M. destruct a as [e|m|now|email password|email password name];
    cbn [act].
  - destruct e; cbn [session_step].
    + apply login_token, M.
    + unfold login_post.
      destruct (post_auth_login _ _ _) as [srv [t|x]]; [reflexivity|exact M].
    + apply register_token, M.
    + unfold register_post.
      destruct (post_auth_register _ _ _ _) as [srv [t|x]];
        [reflexivity|exact M].
    + unfold fetch_user.
      destruct (get_auth_me _ _) as [srv [u|x]]; exact M.
    + reflexivity.
    + unfold checkAuth. destruct (token s) as [t|] eqn:T;
        [|simpl; rewrite T; exact M].
      destruct (truthy (Some t)); [|simpl; rewrite T; exact M].
      destruct (get_auth_me _ _) as [srv [u|x]];
        [simpl; rewrite T; exact M|reflexivity].
    + unfold loadCart. destruct (bearer s).
      * destruct (get_cart _ _) as [srv [c|x]]; exact M.
      * destruct (ls_guestCart (localStorage s)); exact M.
    + reflexivity.
  - destruct (mutate_token s m) as [E1 E2]. rewrite E1, E2. exact M.
  - unfold checkout. destruct (bearer s).
    + destruct (post_cart_checkout _ _) as [srv [o|x]]; exact M.
    + exact M.
  - unfold LoginPage_handleSubmit.
    pose proof (login_token email password s M) as L.
    destruct (login email password s) as [s' [|]]; [reflexivity|exact L].
  - unfold RegisterPage_handleSubmit.
    pose proof (register_token email password name s M) as L.
    destruct (register email password name s) as [s' [|]];
      [reflexivity|exact L].
Qed.

Lemma login_granted (email password : string) (s : State num)
  (srv1 : Server) (t : string) (srv2 : Server) (u : User) :
  post_auth_login (remote s) email password = (srv1, Data t) ->
  get_auth_me srv1 t = (srv2, Data u) ->
  login email password s
  = (setUser (Some u)
       (setRemote srv2
          (store_token (Some t) (setToken (Some t) (setRemote srv1 s)))),
     true).
Proof.
  intros E1 E2. unfold login, login_post, fetch_user. rewrite E1.
  cbn [remote store_token setToken setRemote setStorage]. rewrite E2.
  reflexivity.
Qed.

Lemma login_cart (email password : string) (s : State num) :
  cart (fst (login email password s)) = cart s.
Proof.
  unfold login, login_post, fetch_user.
  destruct (post_auth_login _ _ _) as [srv [t|x]]; simpl; [|reflexivity].
  destruct (get_auth_me _ _) as [srv' [u|x]]; reflexivity.
Qed.

Lemma truthy_nonempty (t : string) : t <> "" -> truthy (Some t) = true.
Proof. intros N. simpl. apply negb_true_iff, String.eqb_neq, N. Qed.

(** The first two effects of a page load with a token the service
    vouches for. *)
Lemma page_load_granted (ls : LocalStorage num) (srv : Server) (t : string)
  (srv1 : Server) (u : User) :
  ls_token ls = Some t ->
  t <> "" ->
  get_auth_me srv t = (srv1, Data u) ->
  checkAuth (loadCart (mount ls srv))
  = setLoading false
      (setUser (Some u)
         (setRemote srv1
            (setCart (match ls_guestCart ls with
                      | Some g => g | None => emptyCart end)
                     (mount ls srv)))).
Proof.
  intros T N E.
  assert (L : loadCart (mount ls srv)
              = setCart (match ls_guestCart ls with
                         | Some g => g | None => emptyCart end)
                        (mount ls srv)).
  { unfold loadCart.
    replace (bearer (mount ls srv)) with (@None string) by reflexivity.
    cbn [localStorage mount]. destruct (ls_guestCart ls); reflexivity. }
  rewrite L. unfold checkAuth. cbn [token setCart mount remote].
  rewrite T, (truthy_nonempty t N), E. reflexivity.
Qed.

(** X5. The token in the React state and the [token] entry of the local
    store never part: on a freshly loaded page they agree, and whatever
    the visitor and the effects do next (sign in, register, log out,
    check the token, load the cart, change the cart, check out, load the
    page again) they still agree. *)
Theorem token_mirrors_store (ls : LocalStorage num) (srv : Server)
  (l : list (Action num)) :
  token (run_actions (mount ls srv) l)
  = ls_token (localStorage (run_actions (mount ls srv) l)).
Proof.
  assert (G : forall (l : list (Action num)) (s : State num),
             token s = ls_token (localStorage s) ->
             token (run_actions s l)
             = ls_token (localStorage (run_actions s l))).
  { clear l. induction l as [|a l IH]; intros s M; [exact M|].
    change (run_actions s (a :: l)) with (run_actions (act s a) l).
    apply IH, act_token, M. }
  apply G. reflexivity.
Qed.

(** X6. [login] answers [true] exactly when both of its requests are
    granted, and then the user, the token and the [token] entry are set
    from the answers.  When the sign-in request is refused nothing but
    the remote service has changed.  When only the user request is
    refused [login] answers [false] although the new token is already in
    the state and in the local store, the user being left as it was.  In
    no case does [login] touch the cart or the guest cart. *)
Theorem login_outcome (email password : string) (s : State num) :
  (forall srv1 t srv2 u,
      post_auth_login (remote s) email password = (srv1, Data t) ->
      get_auth_me srv1 t = (srv2, Data u) ->
      snd (login email password s) = true
      /\ user (fst (login email password s)) = Some u
      /\ token (fst (login email password s)) = Some t
      /\ ls_token (localStorage (fst (login email password s))) = Some t)
  /\ (forall srv1 e,
         post_auth_login (remote s) email password = (srv1, Rejected e) ->
         login email password s = (setRemote srv1 s, false))
  /\ (forall srv1 t srv2 e,
         post_auth_login (remote s) email password = (srv1, Data t) ->
         get_auth_me srv1 t = (srv2, Rejected e) ->
         snd (login email password s) = false
         /\ user (fst (login email password s)) = user s
         /\ token (fst (login email password s)) = Some t
         /\ ls_token (localStorage (fst (login email password s))) = Some t)
  /\ cart (fst (login email password s)) = cart s
  /\ ls_guestCart (localStorage (fst (login email password s)))
     = ls_guestCart (localStorage s).
Proof.
  split; [|split; [|split; [|split]]].
  - intros srv1 t srv2 u E1 E2. unfold login, login_post, fetch_user.
    rewrite E1. cbn [remote store_token setToken setRemote setStorage].
    rewrite E2. repeat split.
  - intros srv1 e E1. unfold login, login_post. rewrite E1. reflexivity.
  - intros srv1 t srv2 e E1 E2. unfold login, login_post, fetch_user.
    rewrite E1. cbn [remote store_token setToken setRemote setStorage].
    rewrite E2. repeat split.
  - unfold login, login_post, fetch_user.
    destruct (post_auth_login _ _ _) as [srv [t|x]]; simpl; [|reflexivity].
    destruct (get_auth_me _ _) as [srv' [u|x]]; reflexivity.
  - apply (session_step_guestCart s (Login email password)).
Qed.

(** X7. A page load with a stored, non-empty token.  The first cart
    effect runs before the user is known, so it shows the saved guest
    cart (or the empty cart) and sends nothing.  If the service then
    vouches for the token the user is set, and the next cart effect shows
    the cart of the account.  If it does not, the visitor is logged out:
    user and token are cleared, the [token] entry is removed, and the
    guest cart stays on display.  Either way the auth check ends with the
    loading flag lowered. *)
Theorem page_load_restores_session (ls : LocalStorage num) (srv : Server)
  (t : string) :
  ls_token ls = Some t ->
  t <> "" ->
  cart (loadCart (mount ls srv))
  = match ls_guestCart ls with Some g => g | None => emptyCart end
  /\ remote (loadCart (mount ls srv)) = srv
  /\ (forall srv1 u,
         get_auth_me srv t = (srv1, Data u) ->
         user (checkAuth (loadCart (mount ls srv))) = Some u
         /\ bearer (checkAuth (loadCart (mount ls srv))) = Some t
         /\ forall srv2 c,
              get_cart srv1 t = (srv2, Data c) ->
              cart (loadCart (checkAuth (loadCart (mount ls srv)))) = c)
  /\ (forall srv1 e,
         get_auth_me srv t = (srv1, Rejected e) ->
         user (checkAuth (loadCart (mount ls srv))) = None
         /\ token (checkAuth (loadCart (mount ls srv))) = None
         /\ ls_token (localStorage (checkAuth (loadCart (mount ls srv)))) = None
         /\ cart (loadCart (checkAuth (loadCart (mount ls srv))))
            = match ls_guestCart ls with Some g => g | None => emptyCart end)
  /\ loading (checkAuth (loadCart (mount ls srv))) = false.
Proof.
  intros T N.
  assert (Tr : truthy (Some t) = true).
  { simpl. apply negb_true_iff, String.eqb_neq, N. }
  assert (L : loadCart (mount ls srv)
              = setCart (match ls_guestCart ls with
                         | Some g => g | None => emptyCart end)
                        (mount ls srv)).
  { unfold loadCart.
    replace (bearer (mount ls srv)) with (@None string) by reflexivity.
    cbn [localStorage mount]. destruct (ls_guestCart ls); reflexivity. }
  rewrite L. split; [reflexivity|]. split; [reflexivity|].
  unfold checkAuth. cbn [token setCart mount remote]. rewrite T, Tr.
  split; [|split].
  - intros srv1 u E. rewrite E. cbn [user setLoading setUser].
    split; [reflexivity|]. split.
    + unfold bearer. cbn [user token setLoading setUser setRemote setCart mount].
      rewrite T, Tr. reflexivity.
    + intros srv2 c E2. unfold loadCart, bearer.
      cbn [user token setLoading setUser setRemote setCart mount remote].
      rewrite T, Tr, E2. reflexivity.
  - intros srv1 e E. rewrite E. repeat split.
    unfold loadCart.
    cbn. destruct (ls_guestCart ls); reflexivity.
  - destruct (get_auth_me srv t) as [srv1 [u|e]]; reflexivity.
Qed.

(** X8. Signing in through the login page, end to end: [login] is
    granted, the page is loaded anew, the cart effect, the auth check and
    the cart effect again run.  When the service vouches for the token
    and serves the cart, the visitor ends signed in with the cart of the
    account on display and the guest cart still in the local store.  When
    [login] is not granted the page is not loaded anew and the cart on
    display stays. *)
Theorem login_page_sign_in (email password : string) (s : State num) :
  (forall srv1 t srv2 u srv3 u' srv4 c,
      t <> "" ->
      post_auth_login (remote s) email password = (srv1, Data t) ->
      get_auth_me srv1 t = (srv2, Data u) ->
      get_auth_me srv2 t = (srv3, Data u') ->
      get_cart srv3 t = (srv4, Data c) ->
      user (run_session (LoginPage_handleSubmit email password s)
                        [LoadCart; CheckAuth; LoadCart]) = Some u'
      /\ token (run_session (LoginPage_handleSubmit email password s)
                            [LoadCart; CheckAuth; LoadCart]) = Some t
      /\ cart (run_session (LoginPage_handleSubmit email password s)
                           [LoadCart; CheckAuth; LoadCart]) = c
      /\ ls_guestCart
           (localStorage (run_session (LoginPage_handleSubmit email password s)
                                      [LoadCart; CheckAuth; LoadCart]))
         = ls_guestCart (localStorage s))
  /\ (snd (login email password s) = false ->
      LoginPage_handleSubmit email password s = fst (login email password s)
      /\ cart (LoginPage_handleSubmit email password s) = cart s).
Proof.
  split.
  - intros srv1 t srv2 u srv3 u' srv4 c N E1 E2 E3 E4.
    unfold LoginPage_handleSubmit.
    rewrite (login_granted email password s srv1 t srv2 u E1 E2).
    cbn [run_session fold_left session_step].
    cbn [localStorage remote setUser setRemote store_token setToken setStorage].
    rewrite (page_load_granted
               {| ls_token := Some t;
                  ls_guestCart := ls_guestCart (localStorage s) |}
               srv2 t srv3 u' eq_refl N E3).
    unfold loadCart, bearer.
    cbn [user token remote setLoading setUser setRemote setCart mount ls_token].
    rewrite (truthy_nonempty t N), E4.
    repeat split.
  - intros F. unfold LoginPage_handleSubmit.
    pose proof (login_cart email password s) as LC.
    destruct (login email password s) as [s' ok]; cbn [fst snd] in *.
    rewrite F. split; [reflexivity | exact LC].
Qed.

(** X21. [register] answers [true] when both of its requests are
    granted, and then the user, the token and the [token] entry are set
    from the answers.  When the registration request is refused nothing
    but the remote service has changed.  When only the user request is
    refused [register] answers [false] although the new token is already
    in the state and in the local store.  The register page loads the
    page anew exactly when [register] answers [true].  In no case is the
    cart or the guest cart touched by [register]. *)
Theorem register_outcome (email password name : string) (s : State num) :
  (forall srv1 t srv2 u,
      post_auth_register (remote s) email password name = (srv1, Data t) ->
      get_auth_me srv1 t = (srv2, Data u) ->
      snd (register email password name s) = true
      /\ user (fst (register email password name s)) = Some u
      /\ token (fst (register email password name s)) = Some t
      /\ ls_token (localStorage (fst (register email password name s)))
         = Some t
      /\ RegisterPage_handleSubmit email password name s
         = mount {| ls_token := Some t;
                    ls_guestCart := ls_guestCart (localStorage s) |} srv2)
  /\ (forall srv1 e,
         post_auth_register (remote s) email password name
         = (srv1, Rejected e) ->
         register email password name s = (setRemote srv1 s, false)
         /\ RegisterPage_handleSubmit email password name s
            = setRemote srv1 s)
  /\ (forall srv1 t srv2 e,
         post_auth_register (remote s) email password name = (srv1, Data t) ->
         get_auth_me srv1 t = (srv2, Rejected e) ->
         snd (register email password name s) = false
         /\ user (fst (register email password name s)) = user s
         /\ token (fst (register email password name s)) = Some t
         /\ ls_token (localStorage (fst (register email password name s)))
            = Some t
         /\ RegisterPage_handleSubmit email password name s
            = fst (register email password name s))
  /\ cart (fst (register email password name s)) = cart s
  /\ ls_guestCart (localStorage (fst (register email password name s)))
     = ls_guestCart (localStorage s).
Proof.
  split; [|split; [|split; [|split]]].
  - intros srv1 t srv2 u E1 E2.
    unfold RegisterPage_handleSubmit, register, register_post, fetch_user.
    rewrite E1. cbn [remote store_token setToken setRemote setStorage].
    rewrite E2. repeat split.
  - intros srv1 e E1.
    unfold RegisterPage_handleSubmit, register, register_post.
    rewrite E1. split; reflexivity.
  - intros srv1 t srv2 e E1 E2.
    unfold RegisterPage_handleSubmit, register, register_post, fetch_user.
    rewrite E1. cbn [remote store_token setToken setRemote setStorage].
    rewrite E2. repeat split.
  - unfold register, register_post, fetch_user.
    destruct (post_auth_register _ _ _ _) as [srv [t|x]]; simpl; [|reflexivity].
    destruct (get_auth_me _ _) as [srv' [u|x]]; reflexivity.
  - apply (session_step_guestCart s (Register email password name)).
Qed.

End SessionFacts.

(** ** How the guest mutations compose *)

Section Composition.

Context {num : Type} `{JsNumber num} `{JsSubtraction num} `{Backend num}.

Lemma filter_modify_found (pid : string) (f : Item num -> Item num)
  (l : list (Item num)) :
  (forall x, product_id (f x) = product_id x) ->
  filter (fun item => negb (has_id pid item)) (modify_found pid f l)
  = filter (fun item => negb (has_id pid item)) l.
Proof.
  intros Hf. induction l as [|x l IH]; simpl; [reflexivity|].
  destruct (has_id pid x) eqn:E; simpl.
  - unfold has_id in *. rewrite Hf, E. reflexivity.
  - rewrite E, IH. reflexivity.
Qed.

Lemma filter_pushed (pid : string) (l : list (Item num)) (x : Item num) :
  product_id x = pid ->
  filter (fun item => negb (has_id pid item)) (l ++ [x])
  = filter (fun item => negb (has_id pid item)) l.
Proof.
  intros E. rewrite filter_app. simpl.
  apply has_id_true in E. rewrite E. apply app_nil_r.
Qed.

Lemma filter_twice (pid : string) (l : list (Item num)) :
  filter (fun item => negb (has_id pid item))
         (filter (fun item => negb (has_id pid item)) l)
  = filter (fun item => negb (has_id pid item)) l.
Proof. apply filter_absent, filter_removes. Qed.

(** The lines of the other products after each guest mutation. *)
Lemma guest_add_others (p : Product num) (q : num) (c : Cart num) :
  filter (fun item => negb (has_id (id p) item)) (items (guest_add p q c))
  = filter (fun item => negb (has_id (id p) item)) (items c).
Proof.
  unfold guest_add. cbn [items].
  destruct (find (has_id (id p)) (items c)).
  - apply filter_modify_found. reflexivity.
  - apply filter_pushed. reflexivity.
Qed.

Lemma guest_update_others (pid : string) (q : num) (c : Cart num) :
  filter (fun item => negb (has_id pid item)) (items (guest_update pid q c))
  = filter (fun item => negb (has_id pid item)) (items c).
Proof.
  unfold guest_update. cbn [items].
  destruct (nle q nzero); [apply filter_twice|].
  destruct (find (has_id pid) (items c)); [|reflexivity].
  apply filter_modify_found. reflexivity.
Qed.

Lemma guest_update_eq (pid pid' : string) (q q' : num) (c c' : Cart num) :
  items (guest_update pid q c) = items (guest_update pid' q' c') ->
  guest_update pid q c = guest_update pid' q' c'.
Proof.
  intros E.
  change (guest_update pid q c)
    with {| items := items (guest_update pid q c);
            total := cart_total (items (guest_update pid q c)) |}.
  rewrite E. reflexivity.
Qed.

Lemma guest_update_nonpositive (pid : string) (q : num) (c : Cart num) :
  nle q nzero = true -> guest_update pid q c = guest_remove pid c.
Proof. intros Q. unfold guest_update, guest_remove. rewrite Q. reflexivity. Qed.

(** An update after an update: the last quantity stands. *)
Lemma guest_update_twice (pid : string) (q1 q2 : num) (c : Cart num) :
  nle q1 nzero = false ->
  guest_update pid q2 (guest_update pid q1 c) = guest_update pid q2 c.
Proof.
  intros Q1. apply guest_update_eq.
  unfold guest_update at 1 3. cbn [items].
  destruct (nle q2 nzero); [apply guest_update_others|].
  unfold guest_update. rewrite Q1. cbn [items].
  destruct (find (has_id pid) (items c)) as [it|] eqn:F.
  - rewrite (find_modify_found pid (fun item => set_quantity item q1)
               (items c) it) by (reflexivity || exact F).
    rewrite modify_found_twice by reflexivity.
    apply modify_found_ext. reflexivity.
  - rewrite F. reflexivity.
Qed.

(** An update after a removal finds no line and adds none. *)
Lemma guest_update_after_remove (pid : string) (q : num) (c : Cart num) :
  guest_update pid q (guest_remove pid c) = guest_remove pid c.
Proof.
  assert (E : items (guest_update pid q (guest_remove pid c))
              = items (guest_remove pid c)).
  { unfold guest_update, guest_remove. cbn [items].
    destruct (nle q nzero); [apply filter_twice|].
    assert (F : find (has_id pid)
                  (filter (fun item => negb (has_id pid item)) (items c))
                = None) by (apply find_has_id_none, filter_removes).
    rewrite F. reflexivity. }
  change (guest_update pid q (guest_remove pid c))
    with {| items := items (guest_update pid q (guest_remove pid c));
            total := cart_total (items (guest_update pid q (guest_remove pid c))) |}.
  rewrite E. reflexivity.
Qed.

Lemma guest_state_eq (s : State num) (c c' : Cart num) :
  c = c' ->
  setCartLoading false (saveGuestCart c (setCart c s))
  = setCartLoading false (saveGuestCart c' (setCart c' s)).
Proof. intros ->. reflexivity. Qed.

(** X9. A guest mutation is about one product and leaves the lines of
    all the others as they were, in the order they were: what is left
    after taking out the lines of that product is the same before and
    after. *)
Theorem mutation_spares_other_products (s : State num) (m : Mutation num) :
  bearer s = None ->
  filter (fun item => negb (String.eqb (product_id item) (target m)))
         (items (cart (mutate s m)))
  = filter (fun item => negb (String.eqb (product_id item) (target m)))
           (items (cart s)).
Proof.
  intros B. rewrite (guest_mutate_cart s m B). destruct m; cbn [target].
  - apply guest_add_others.
  - apply guest_update_others.
  - apply (filter_twice productId (items (cart s))).
Qed.

(** X10. Two guest updates of one product in a row.  When the first
    quantity is not [<= 0] the outcome is that of the second update
    alone.  When the first quantity is [<= 0] the line is gone and the
    second update does not bring it back: the outcome is that of
    [removeFromCart]. *)
Theorem updateQuantity_twice (s : State num) (productId : string)
  (q1 q2 : num) :
  bearer s = None ->
  (nle q1 nzero = false ->
   updateQuantity productId q2 (updateQuantity productId q1 s)
   = updateQuantity productId q2 s)
  /\ (nle q1 nzero = true ->
      updateQuantity productId q2 (updateQuantity productId q1 s)
      = removeFromCart productId s).
Proof.
  intros B.
  assert (B1 : bearer (updateQuantity productId q1 s) = None)
    by exact (eq_trans (bearer_mutate s (UpdateQuantity productId q1)) B).
  rewrite (guest_updateQuantity (updateQuantity productId q1 s)) by exact B1.
  rewrite !(guest_updateQuantity s) by exact B.
  rewrite (guest_removeFromCart s) by exact B.
  cbn [cart setCartLoading saveGuestCart setCart setStorage].
  split; intros Q.
  - rewrite (guest_update_twice productId q1 q2 (cart s) Q). reflexivity.
  - rewrite (guest_update_nonpositive productId q1 (cart s) Q).
    rewrite guest_update_after_remove. reflexivity.
Qed.

(** X11. Adding a product that is not in the cart and removing it again
    gives back the cart there was, lines and total. *)
Theorem add_then_remove (s : State num) (product : Product num) (q : num) :
  bearer s = None ->
  consistent (cart s) ->
  find (has_id (id product)) (items (cart s)) = None ->
  cart (removeFromCart (id product) (addToCart product q s)) = cart s.
Proof.
  intros B C F.
  assert (B1 : bearer (addToCart product q s) = None)
    by exact (eq_trans (bearer_mutate s (AddToCart product q)) B).
  rewrite (guest_removeFromCart (addToCart product q s)) by exact B1.
  rewrite (guest_addToCart s) by exact B.
  cbn [cart setCartLoading saveGuestCart setCart setStorage].
  unfold guest_remove. apply consistent_eq; [exact C|].
  rewrite guest_add_others. apply filter_absent, find_has_id_none, F.
Qed.

(** X12. Adding a product that is not in the cart raises the total by
    [price * quantity] of the new line: the new total is the old one
    plus that product, in this order of [+]. *)
Theorem add_raises_total (s : State num) (product : Product num) (q : num) :
  bearer s = None ->
  consistent (cart s) ->
  find (has_id (id product)) (items (cart s)) = None ->
  total (cart (addToCart product q s))
  = nadd (total (cart s)) (nmul (p_price product) q).
Proof.
  intros B C F. rewrite (guest_addToCart s) by exact B.
  cbn [cart setCartLoading saveGuestCart setCart setStorage].
  rewrite guest_add_consistent, (guest_add_new _ _ _ F).
  unfold cart_total. rewrite fold_left_app. cbn [fold_left].
  rewrite C. reflexivity.
Qed.

End Composition.

(** ** Header, cart lines and the cart page *)

Section Pages.

Context {num : Type} `{JsNumber num} `{JsSubtraction num} `{Backend num}.

(** X13. The badge on the cart link is hidden exactly when the cart has
    no line; after a checkout that returns an order it is hidden; and a
    guest add of a product that is not in the cart raises the count it
    shows by the quantity added. *)
Theorem header_badge (s : State num) :
  (Header_badge s = None <-> items (cart s) = [])
  /\ (forall now order,
         snd (checkout now s) = Returned order ->
         Header_badge (fst (checkout now s)) = None)
  /\ (forall product q,
         bearer s = None ->
         find (has_id (id product)) (items (cart s)) = None ->
         Header_badge (addToCart product q s)
         = Some (nadd (cart_count (items (cart s))) q)).
Proof.
  split; [|split].
  - unfold Header_badge. destruct (items (cart s)); simpl.
    + split; reflexivity.
    + split; discriminate.
  - intros now order E. unfold checkout in *.
    destruct (bearer s); [|reflexivity].
    destruct (post_cart_checkout _ _) as [srv [o|e]];
      [reflexivity | discriminate E].
  - intros product q B F. unfold Header_badge.
    rewrite (guest_addToCart s) by exact B.
    cbn [cart setCartLoading saveGuestCart setCart setStorage].
    rewrite (guest_add_new _ _ _ F), length_app. cbn [List.length].
    replace (Nat.ltb 0 (List.length (items (cart s)) + 1)) with true
      by (symmetry; apply Nat.ltb_lt; lia).
    unfold cart_count. rewrite fold_left_app. reflexivity.
Qed.

(** X14. The minus and plus buttons of a cart line, in guest mode.  When
    the quantity less one is [<= 0] the minus button does what the Remove
    button does.  Otherwise it leaves the line of the product with the
    quantity less one, and the plus button, when the quantity plus one is
    not [<= 0], leaves it with the quantity plus one. *)
Theorem cart_item_buttons (s : State num) (item : Item num) :
  bearer s = None ->
  find (has_id (product_id item)) (items (cart s)) = Some item ->
  (nle (nsub (quantity item) none) nzero = true ->
   CartItem_minus item s = CartItem_remove item s)
  /\ (nle (nsub (quantity item) none) nzero = false ->
      find (has_id (product_id item)) (items (cart (CartItem_minus item s)))
      = Some (set_quantity item (nsub (quantity item) none)))
  /\ (nle (nadd (quantity item) none) nzero = false ->
      find (has_id (product_id item)) (items (cart (CartItem_plus item s)))
      = Some (set_quantity item (nadd (quantity item) none))).
Proof.
  intros B F. unfold CartItem_minus, CartItem_plus, CartItem_remove.
  rewrite !(guest_updateQuantity s) by exact B.
  rewrite (guest_removeFromCart s) by exact B.
  cbn [cart setCartLoading saveGuestCart setCart setStorage].
  split; [|split]; intros Q.
  - rewrite (guest_update_nonpositive _ _ _ Q). reflexivity.
  - unfold guest_update. rewrite Q, F. cbn [items].
    apply (find_modify_found (product_id item)
             (fun x => set_quantity x (nsub (quantity item) none)));
      [reflexivity | exact F].
  - unfold guest_update. rewrite Q, F. cbn [items].
    apply (find_modify_found (product_id item)
             (fun x => set_quantity x (nadd (quantity item) none)));
      [reflexivity | exact F].
Qed.


(** X16. What the guest is charged is what the page showed: when the
    cart page shows the summary with a subtotal, a click on Checkout
    returns an order whose [total] is that subtotal, empties the cart and
    the [guestCart] entry, and turns the page into the confirmation. *)
Theorem guest_order_total_is_subtotal (now : N) (s : State num)
  (lines : list (Item num)) (subtotal : num) :
  bearer s = None ->
  CartPage None s = CartSummary lines subtotal ->
  exists order,
    fst (click_checkout now None s) = Some order
    /\ get_prop order "total" = JNumber subtotal
    /\ items (cart (snd (click_checkout now None s))) = []
    /\ ls_guestCart (localStorage (snd (click_checkout now None s))) = None.
Proof.
  intros B V. unfold click_checkout. rewrite V.
  unfold handleCheckout. rewrite (guest_checkout now s B).
  exists (orderData now (cart s)). cbn [fst snd].
  split; [reflexivity|]. split; [|split; reflexivity].
  unfold CartPage in V.
  destruct (Nat.eqb (List.length (items (cart s))) 0); [discriminate V|].
  injection V as _ <-. reflexivity.
Qed.

(** X17. A refused checkout can be tried again: when the backend refuses
    the checkout of a signed-in user, the click leaves no order, the cart
    is as it was, and the page still shows the same summary with its
    button. *)
Theorem refused_checkout_can_be_retried (now : N) (s : State num)
  (t : string) (srv : Server) (e : AxiosError)
  (lines : list (Item num)) (subtotal : num) :
  bearer s = Some t ->
  post_cart_checkout (remote s) t = (srv, Rejected e) ->
  CartPage None s = CartSummary lines subtotal ->
  click_checkout now None s = (None, setRemote srv s)
  /\ CartPage None (setRemote srv s) = CartSummary lines subtotal.
Proof.
  intros B E V. unfold click_checkout. rewrite V.
  unfold handleCheckout, checkout. rewrite B, E.
  split; [reflexivity | exact V].
Qed.

(** X18. Guest orders placed at different clock readings have different
    ids. *)
Theorem guest_order_id_injective (now1 now2 : N) :
  guest_order_id now1 = guest_order_id now2 -> now1 = now2.
Proof.
  unfold guest_order_id. cbn [String.append]. intros E.
  injection E as E.
  assert (U : Some (N.to_uint now1) = Some (N.to_uint now2)).
  { rewrite <- !NilEmpty.usu. rewrite E. reflexivity. }
  injection U as U.
  rewrite <- (DecimalN.Unsigned.of_to now1), <- (DecimalN.Unsigned.of_to now2).
  rewrite U. reflexivity.
Qed.

End Pages.

(** ** Where the lines of a guest cart come from *)

Section Snapshots.

Context {num : Type} `{JsNumber num} `{JsSubtraction num} `{Backend num}.

Variable S : Product num -> Prop.

Let taken (item : Item num) : Prop :=
  exists product, S product /\ snapshot_of product item.

Lemma modify_found_Forall (P : Item num -> Prop) (pid : string)
  (f : Item num -> Item num) (l : list (Item num)) :
  (forall x, P x -> P (f x)) ->
  Forall P l -> Forall P (modify_found pid f l).
Proof.
  intros Hf. induction 1 as [|x l Hx Hl IH]; simpl; [constructor|].
  destruct (has_id pid x); constructor; auto.
Qed.

Lemma filter_Forall (P : Item num -> Prop) (p : Item num -> bool)
  (l : list (Item num)) :
  Forall P l -> Forall P (filter p l).
Proof.
  induction 1 as [|x l Hx Hl IH]; simpl; [constructor|].
  destruct (p x); [constructor|]; assumption.
Qed.

Lemma taken_set_quantity (item : Item num) (q : num) :
  taken item -> taken (set_quantity item q).
Proof. intros [p [Sp Hp]]. exists p. split; [exact Sp | exact Hp]. Qed.

Lemma mutate_taken (s : State num) (m : Mutation num) :
  bearer s = None ->
  (forall p q, m = AddToCart p q -> S p) ->
  Forall taken (items (cart s)) ->
  Forall taken (items (cart (mutate s m))).
Proof.
  intros B A F. rewrite (guest_mutate_cart s m B). destruct m.
  - unfold guest_add. cbn [items].
    destruct (find (has_id (id product)) (items (cart s))).
    + apply modify_found_Forall; [|exact F].
      intros x. apply taken_set_quantity.
    + apply Forall_app. split; [exact F|].
      constructor; [|constructor].
      exists product. split; [apply (A product quantity0 eq_refl)|].
      repeat split.
  - unfold guest_update. cbn [items].
    destruct (nle quantity0 nzero); [apply filter_Forall, F|].
    destruct (find (has_id productId) (items (cart s))); [|exact F].
    apply modify_found_Forall; [|exact F].
    intros x. apply taken_set_quantity.
  - unfold guest_remove. cbn [items]. apply filter_Forall, F.
Qed.

Lemma run_taken (ms : list (Mutation num)) :
  forall s : State num,
    bearer s = None ->
    (forall p q, In (AddToCart p q) ms -> S p) ->
    Forall taken (items (cart s)) ->
    Forall taken (items (cart (run_mutations s ms))).
Proof.
  induction ms as [|m ms IH]; intros s B A F; [exact F|].
  change (run_mutations s (m :: ms)) with (run_mutations (mutate s m) ms).
  apply IH.
  - rewrite bearer_mutate. exact B.
  - intros p q I. apply (A p q). right. exact I.
  - apply mutate_taken; [exact B | | exact F].
    intros p q E. apply (A p q). left. exact E.
Qed.

End Snapshots.

Section SnapshotInvariant.

Context {num : Type} `{JsNumber num} `{JsSubtraction num} `{Backend num}.

(** X19. Along a guest run that starts with no line, every line of the
    cart is the snapshot of a product that was added in the run: its id,
    name, price and image are those of that product.  [updateQuantity]
    and [removeFromCart] never bring a line into the cart and no mutation
    changes anything but the quantity of a line. *)
Theorem lines_are_snapshots (s : State num) (ms : list (Mutation num))
  (item : Item num) :
  bearer s = None ->
  items (cart s) = [] ->
  In item (items (cart (run_mutations s ms))) ->
  exists product q,
    In (AddToCart product q) ms
    /\ product_id item = id product
    /\ name item = p_name product
    /\ price item = p_price product
    /\ image_url item = p_image_url product.
Proof.
  intros B E I.
  pose proof (run_taken (fun p => exists q, In (AddToCart p q) ms) ms s B)
    as R.
  assert (F : Forall (fun item =>
                        exists product,
                          (exists q, In (AddToCart product q) ms)
                          /\ snapshot_of product item)
                     (items (cart (run_mutations s ms)))).
  { apply R.
    - intros p q Hin. exists q. exact Hin.
    - rewrite E. constructor. }
  rewrite Forall_forall in F.
  destruct (F item I) as [product [[q Hq] Hs]].
  exists product, q. split; [exact Hq | exact Hs].
Qed.

End SnapshotInvariant.

(** ** The product list *)

Section Catalog.

Context {num : Type} `{JsNumber num} `{Backend num} `{!CatalogBackend num}.

(** X20. The product list after its effect: the spinner is gone whatever
    the backend answered and no error is shown.  The products are those
    of the answer when both requests are granted.  When initialisation is
    refused the products are not asked for and the list stays as it was;
    when only the products request is refused the list stays as it was
    too. *)
Theorem product_list_outcome (srv : Server) (st : ProductListState num) :
  ProductList (snd (loadProducts srv st))
  = Grid (products (snd (loadProducts srv st)))
  /\ (forall srv1 e,
         post_init_products srv = (srv1, Rejected e) ->
         loadProducts srv st
         = (srv1, {| products := products st; pl_loading := false |}))
  /\ (forall srv1 u srv2 ps,
         post_init_products srv = (srv1, Data u) ->
         get_products srv1 = (srv2, Data ps) ->
         loadProducts srv st = (srv2, {| products := ps; pl_loading := false |}))
  /\ (forall srv1 u srv2 e,
         post_init_products srv = (srv1, Data u) ->
         get_products srv1 = (srv2, Rejected e) ->
         loadProducts srv st
         = (srv2, {| products := products st; pl_loading := false |})).
Proof.
  split; [|split; [|split]].
  - unfold loadProducts.
    destruct (post_init_products srv) as [srv1 [u|e]]; [|reflexivity].
    destruct (get_products srv1) as [srv2 [ps|e]]; reflexivity.
  - intros srv1 e E. unfold loadProducts. rewrite E. reflexivity.
  - intros srv1 u srv2 ps E1 E2. unfold loadProducts. rewrite E1, E2.
    reflexivity.
  - intros srv1 u srv2 e E1 E2. unfold loadProducts. rewrite E1, E2.
    reflexivity.
Qed.

End Catalog.

(** ** The remaining properties at sample inputs *)

(** The guest with two boards signs in. *)
Lemma login_outcome_witness :
  post_auth_login (remote Sample.guest_with_boards)
                  "sarah.johnson@example.com" "secret"
  = (remote Sample.guest_with_boards, Data "jwt")
  /\ snd (login "sarah.johnson@example.com" "secret" Sample.guest_with_boards)
     = true.
Proof.
  split; [reflexivity|].
  refine (proj1 (proj1
    (login_outcome
       "sarah.johnson@example.com" "secret" Sample.guest_with_boards)
    (remote Sample.guest_with_boards) "jwt"
    (remote Sample.guest_with_boards) "Sarah Johnson" _ _)); reflexivity.
Defined.

(** A page load with a token the service no longer knows. *)
Lemma page_load_restores_session_witness :
  ls_token (localStorage (Tour.returning "old")) = Some "old"
  /\ "old" <> ""
  /\ token (checkAuth (loadCart (Tour.returning "old"))) = None
  /\ cart (loadCart (checkAuth (loadCart (Tour.returning "old"))))
     = cart Sample.guest_with_boards.
Proof.
  split; [reflexivity|]. split; [discriminate|].
  pose proof (proj1 (proj2 (proj2 (proj2
    (page_load_restores_session
       (localStorage (Tour.returning "old")) (remote (Tour.returning "old"))
       "old" eq_refl ltac:(discriminate)))))
    (remote (Tour.returning "old")) "401" eq_refl) as P.
  split; [exact (proj1 (proj2 P)) | exact (proj2 (proj2 (proj2 P)))].
Defined.

(** The guest with two boards signs in through the login page. *)
Lemma login_page_sign_in_witness :
  "jwt" <> ""
  /\ cart (run_session
             (LoginPage_handleSubmit "sarah.johnson@example.com" "secret"
                                     Sample.guest_with_boards)
             [LoadCart; CheckAuth; LoadCart])
     = emptyCart.
Proof.
  split; [discriminate|].
  refine (proj1 (proj2 (proj2 (proj1
    (login_page_sign_in
       "sarah.johnson@example.com" "secret" Sample.guest_with_boards)
    emptyCart "jwt" emptyCart "Sarah Johnson" emptyCart "Sarah Johnson"
    emptyCart emptyCart _ _ _ _ _)))); (discriminate || reflexivity).
Defined.

(** The guest with a board and a mug asks for three boards. *)
Lemma mutation_spares_other_products_witness :
  bearer Tour.guest_with_both = None
  /\ filter (fun item => negb (String.eqb (product_id item) "A"))
            (items (cart (updateQuantity "A" 3%float Tour.guest_with_both)))
     = [new_item Sample.mug 1%float].
Proof.
  split; [reflexivity|].
  exact (mutation_spares_other_products Tour.guest_with_both
           (UpdateQuantity "A" 3%float) eq_refl).
Defined.

Lemma updateQuantity_twice_witness :
  bearer Sample.guest_with_boards = None
  /\ nle 0%float nzero = true
  /\ updateQuantity "A" 5%float
       (updateQuantity "A" 0%float Sample.guest_with_boards)
     = removeFromCart "A" Sample.guest_with_boards.
Proof.
  split; [reflexivity|]. split; [reflexivity|].
  refine (proj2 (updateQuantity_twice
                   Sample.guest_with_boards "A" 0%float 5%float _) _);
    reflexivity.
Defined.

Lemma add_then_remove_witness :
  bearer Sample.guest_with_boards = None
  /\ consistent (cart Sample.guest_with_boards)
  /\ find (has_id (id Sample.mug)) (items (cart Sample.guest_with_boards))
     = None
  /\ cart (removeFromCart "B" (addToCart Sample.mug 1%float
                                          Sample.guest_with_boards))
     = cart Sample.guest_with_boards.
Proof.
  split; [reflexivity|]. split; [reflexivity|]. split; [reflexivity|].
  refine (add_then_remove
            Sample.guest_with_boards Sample.mug 1%float _ _ _); reflexivity.
Defined.

Lemma add_raises_total_witness :
  bearer Sample.guest_with_boards = None
  /\ consistent (cart Sample.guest_with_boards)
  /\ total (cart (addToCart Sample.mug 1%float Sample.guest_with_boards))
     = nadd (total (cart Sample.guest_with_boards))
            (nmul (p_price Sample.mug) 1%float).
Proof.
  split; [reflexivity|]. split; [reflexivity|].
  refine (add_raises_total
            Sample.guest_with_boards Sample.mug 1%float _ _ _); reflexivity.
Defined.

Lemma header_badge_witness :
  bearer Sample.guest_with_boards = None
  /\ Header_badge (addToCart Sample.mug 1%float Sample.guest_with_boards)
     = Some (nadd (cart_count (items (cart Sample.guest_with_boards))) 1%float).
Proof.
  split; [reflexivity|].
  refine (proj2 (proj2 (header_badge
                          Sample.guest_with_boards))
            Sample.mug 1%float _ _); reflexivity.
Defined.

(** The guest with one board and one mug takes the board out with the
    minus button. *)
Lemma cart_item_buttons_witness :
  bearer Tour.guest_with_both = None
  /\ nle (nsub 1%float none) nzero = true
  /\ CartItem_minus (new_item Sample.board 1%float) Tour.guest_with_both
     = CartItem_remove (new_item Sample.board 1%float) Tour.guest_with_both.
Proof.
  split; [reflexivity|]. split; [reflexivity|].
  refine (proj1 (cart_item_buttons Tour.guest_with_both
                   (new_item Sample.board 1%float) _ _) _); reflexivity.
Defined.


Lemma guest_order_total_is_subtotal_witness :
  CartPage None Sample.guest_with_boards
  = CartSummary (items (cart Sample.guest_with_boards))
                (total (cart Sample.guest_with_boards))
  /\ exists order,
       fst (click_checkout 1%N None Sample.guest_with_boards) = Some order
       /\ get_prop order "total"
          = JNumber (total (cart Sample.guest_with_boards))
       /\ items (cart (snd (click_checkout 1%N None Sample.guest_with_boards)))
          = []
       /\ ls_guestCart
            (localStorage (snd (click_checkout 1%N None Sample.guest_with_boards)))
          = None.
Proof.
  split; [reflexivity|].
  refine (guest_order_total_is_subtotal
            1%N Sample.guest_with_boards _ _ _ _); reflexivity.
Defined.

(** The member whose account holds a mug clicks Checkout while the
    service refuses writes. *)
Lemma refused_checkout_can_be_retried_witness :
  bearer Sample.member_signed_in = Some "jwt"
  /\ fst (click_checkout 1%N None Sample.member_signed_in) = None
  /\ cart (snd (click_checkout 1%N None Sample.member_signed_in))
     = cart Sample.member_signed_in.
Proof.
  split; [reflexivity|].
  pose proof (proj1 (refused_checkout_can_be_retried
    1%N Sample.member_signed_in "jwt"
    (remote Sample.member_signed_in) "503"
    (items (cart Sample.member_signed_in))
    (total (cart Sample.member_signed_in)) eq_refl eq_refl eq_refl)) as P.
  rewrite P. split; reflexivity.
Defined.

Lemma guest_order_id_injective_witness :
  guest_order_id 1753180598000%N = "guest-1753180598000"
  /\ 1753180598000%N = 1753180598000%N.
Proof.
  split; [reflexivity|].
  refine (guest_order_id_injective 1753180598000%N 1753180598000%N _).
  reflexivity.
Defined.

Lemma lines_are_snapshots_witness :
  bearer Sample.first_visit = None
  /\ In (new_item Sample.board 4%float)
        (items (cart (run_mutations Sample.first_visit Sample.walk)))
  /\ exists product q,
       In (AddToCart product q) Sample.walk
       /\ price (new_item Sample.board 4%float) = p_price product.
Proof.
  assert (I0 : In (new_item Sample.board 4%float)
                  (items (cart (run_mutations Sample.first_visit Sample.walk))))
    by (left; reflexivity).
  split; [reflexivity|]. split; [exact I0|].
  destruct (lines_are_snapshots
              Sample.first_visit Sample.walk (new_item Sample.board 4%float)
              eq_refl eq_refl I0)
    as [product [q [I [_ [_ [P _]]]]]].
  exists product, q. split; [exact I | exact P].
Defined.

(** The product list of a fresh page when initialisation is refused. *)
Lemma product_list_outcome_witness :
  @post_init_products float (single_account float) Tour.closed_catalog
     (emptyCart : Cart float)
  = (emptyCart, Rejected "500")
  /\ ProductList (snd (loadProducts (CatalogBackend0 := Tour.closed_catalog)
                                    (emptyCart : Cart float) ProductList_mount))
     = Grid [].
Proof.
  split; [reflexivity|].
  pose proof (proj1 (proj2
    (product_list_outcome (CatalogBackend0 := Tour.closed_catalog)
       (emptyCart : Cart float) ProductList_mount))
    (emptyCart : Cart float) "500" eq_refl) as P.
  rewrite P. reflexivity.
Defined.

(** ** The cart invariants across the whole session *)

Section SystemInvariant.

Context {num : Type} `{JsNumber num} `{JsSubtraction num} `{JsonNumber num}
        `{Backend num}.

Section Generic.

Variable P : Cart num -> Prop.
Hypothesis P_empty : P emptyCart.
Hypothesis P_add : forall p q c, P c -> P (guest_add p q c).
Hypothesis P_update : forall pid q c, P c -> P (guest_update pid q c).
Hypothesis P_remove : forall pid c, P c -> P (guest_remove pid c).
Hypothesis P_answers : answers_satisfy P.
Hypothesis P_get :
  forall srv t srv' c, get_cart srv t = (srv', Data c) -> P c.

(** Both the cart on display and the cart in the local store are fine. *)
Let sound (s : State num) : Prop :=
  P (cart s)
  /\ forall g, ls_guestCart (localStorage s) = Some g -> P g.

Lemma session_step_sound (s : State num) (e : SessionStep) :
  sound s -> sound (session_step s e).
Proof.
  intros [C G]. split.
  - destruct e; cbn [session_step]; try exact C.
    + rewrite login_cart. exact C.
    + unfold login_post.
      destruct (post_auth_login _ _ _) as [srv [t|x]]; exact C.
    + unfold register, register_post, fetch_user.
      destruct (post_auth_register _ _ _ _) as [srv [t|x]]; simpl; [|exact C].
      destruct (get_auth_me _ _) as [srv' [u|x]]; exact C.
    + unfold register_post.
      destruct (post_auth_register _ _ _ _) as [srv [t|x]]; exact C.
    + unfold fetch_user.
      destruct (get_auth_me _ _) as [srv [u|x]]; exact C.
    + unfold checkAuth. destruct (token s) as [t|]; [|exact C].
      destruct (truthy (Some t)); [|exact C].
      destruct (get_auth_me _ _) as [srv [u|x]]; exact C.
    + unfold loadCart. destruct (bearer s) as [t|].
      * destruct (get_cart _ _) as [srv [c|x]] eqn:E; [|exact C].
        apply (P_get _ _ _ _ E).
      * destruct (ls_guestCart (localStorage s)) as [g|]; [|exact C].
        apply (G g eq_refl).
    + exact P_empty.
  - intros g. rewrite session_step_guestCart. apply G.
Qed.

Lemma mutate_sound (s : State num) (m : Mutation num) :
  sound s -> sound (mutate s m).
Proof.
  intros [C G].
  assert (C' : P (cart (mutate s m))).
  { apply mutate_preserves; auto. }
  split; [exact C'|].
  destruct (bearer s) as [t|] eqn:B.
  - rewrite (signed_in_mutate s m t B).
    destruct (snd (request (remote s) t m)); exact G.
  - rewrite (guest_mutate_saved s m B). intros g [= <-]. exact C'.
Qed.

Lemma checkout_sound (now : N) (s : State num) :
  sound s -> sound (fst (checkout now s)).
Proof.
  intros [C G]. unfold checkout. destruct (bearer s) as [t|].
  - destruct (post_cart_checkout _ _) as [srv [o|x]]; split;
      try exact G; [exact P_empty | exact C].
  - split; [exact P_empty | discriminate].
Qed.

Lemma mount_sound (s : State num) :
  sound s -> sound (mount (localStorage s) (remote s)).
Proof. intros [C G]. split; [exact P_empty | exact G]. Qed.

Lemma act_sound (s : State num) (a : Action num) :
  sound s -> sound (act s a).
Proof.
  intros S. destruct a as [e|m|now|email password|email password name];
    cbn [act].
  - apply session_step_sound, S.
  - apply mutate_sound, S.
  - apply checkout_sound, S.
  - unfold LoginPage_handleSubmit.
    pose proof (session_step_sound s (Login email password) S) as L.
    cbn [session_step] in L.
    destruct (login email password s) as [s' [|]]; cbn [fst] in L;
      [apply mount_sound, L | exact L].
  - unfold RegisterPage_handleSubmit.
    pose proof (session_step_sound s (Register email password name) S) as L.
    cbn [session_step] in L.
    destruct (register email password name s) as [s' [|]]; cbn [fst] in L;
      [apply mount_sound, L | exact L].
Qed.

Lemma run_actions_sound (l : list (Action num)) :
  forall s : State num, sound s -> sound (run_actions s l).
Proof.
  induction l as [|a l IH]; intros s S; [exact S|].
  change (run_actions s (a :: l)) with (run_actions (act s a) l).
  apply IH, act_sound, S.
Qed.

Lemma run_actions_from_mount (ls : LocalStorage num) (srv : Server)
  (l : list (Action num)) :
  (forall g, ls_guestCart ls = Some g -> P g) ->
  P (cart (run_actions (mount ls srv) l))
  /\ forall g,
       ls_guestCart (localStorage (run_actions (mount ls srv) l)) = Some g ->
       P g.
Proof.
  intros G. apply (run_actions_sound l (mount ls srv)).
  split; [exact P_empty | exact G].
Qed.

End Generic.

(** X22. The two cart invariants hold across the whole session, not only
    along guest mutations.  Start from a freshly loaded page whose saved
    guest cart, if any, has its total equal to the sum of its lines and
    distinct product ids, let the backend send only such carts, and let
    JSON give back every number of the cart on display at each step
    (none is NaN, an infinity or [-0]).  Then after any sequence of
    sign-ins, registrations, logouts, effects, page loads, mutations and
    checkouts, the cart on display and the guest cart in the local store
    are both of that kind. *)
Theorem invariants_across_session (ls : LocalStorage num) (srv : Server)
  (l : list (Action num)) :
  survives_along (mount ls srv) l = true ->
  (forall g, ls_guestCart ls = Some g -> consistent g /\ unique_ids g) ->
  answers_satisfy (fun c => consistent c /\ unique_ids c) ->
  (forall srv t srv' c,
      get_cart srv t = (srv', Data c) -> consistent c /\ unique_ids c) ->
  (consistent (cart (run_actions (mount ls srv) l))
   /\ unique_ids (cart (run_actions (mount ls srv) l)))
  /\ forall g,
       ls_guestCart (localStorage (run_actions (mount ls srv) l)) = Some g ->
       consistent g /\ unique_ids g.
Proof.
  intros _ G A Get.
  apply (run_actions_from_mount (fun c => consistent c /\ unique_ids c));
    auto.
  - split; [reflexivity | constructor].
  - intros p q c [C U]. split;
      [apply guest_add_consistent | apply guest_add_unique, U].
  - intros pid q c [C U]. split;
      [apply guest_update_consistent | apply guest_update_unique, U].
  - intros pid c [C U]. split;
      [apply guest_remove_consistent | apply guest_remove_unique, U].
Qed.

End SystemInvariant.

(** The long visit of the sample, served by the account with the empty
    cart. *)
Lemma invariants_across_session_witness :
  consistent
    (cart (run_actions
             (mount (H0 := Tour.fresh_account)
                    {| ls_token := None; ls_guestCart := None |} tt)
             Tour.long_visit))
  /\ unique_ids
       (cart (run_actions
                (mount (H0 := Tour.fresh_account)
                       {| ls_token := None; ls_guestCart := None |} tt)
                Tour.long_visit)).
Proof.
  refine (proj1 (invariants_across_session (H2 := Tour.fresh_account)
                   {| ls_token := None; ls_guestCart := None |} tt
                   Tour.long_visit _ _ _ _)).
  - reflexivity.
  - discriminate.
  - repeat split; discriminate.
  - intros srv t srv' c [= _ <-]. split; [reflexivity | constructor].
Defined.

(** The guest with two boards registers. *)
Lemma register_outcome_witness :
  post_auth_register (remote Sample.guest_with_boards)
                     "sarah.johnson@example.com" "secret" "Sarah Johnson"
  = (remote Sample.guest_with_boards, Data "jwt")
  /\ snd (register "sarah.johnson@example.com" "secret" "Sarah Johnson"
                   Sample.guest_with_boards)
     = true.
Proof.
  split; [reflexivity|].
  refine (proj1 (proj1
    (register_outcome "sarah.johnson@example.com" "secret" "Sarah Johnson"
       Sample.guest_with_boards)
    (remote Sample.guest_with_boards) "jwt"
    (remote Sample.guest_with_boards) "Sarah Johnson" _ _)); reflexivity.
Defined.
